(** * mitr-api: the device trigger tracker and its request handlers

    A shallow embedding of [src/server.js]: the in-memory [deviceStates]
    table, the API-key middleware, the four request handlers (trigger,
    data submission, status, listing) and the periodic cleanup, followed
    by the properties of the specification that concern them.

    Modelling conventions.
    - [Date.now()] and [new Date()] are readings of a clock.  A handler
      receives [clock : nat -> Z]; [clock i] is the value (milliseconds
      since the epoch) of the i-th reading the handler performs, in
      execution order.
    - JavaScript numbers coming from a JSON body are represented by the
      rational they denote (every finite double is a rational), extended
      with the two infinities and NaN.  Only [Math.abs] and comparisons
      are ever applied to them, and both are exact on doubles.
    - The document store (Mongoose model [Coordinate]) is external: the
      outcome of [save] and of [find] is an input of the handler.
    - [deviceStates] is a JavaScript [Map]; it is a [gmap] keyed by the
      JavaScript value used as key. *)

From Stdlib Require Import ZArith QArith Qcanon Qcabs.
From stdpp Require Import base decidable countable numbers strings gmap fin_maps list.

Local Open Scope Z_scope.

(** ** JavaScript values *)

(** A JavaScript number. *)
Inductive JsNumber : Type :=
  | Finite (q : Qc)
  | PosInfinity
  | NegInfinity
  | NaN.

(** The values a field of a parsed JSON body can take.  [VUndefined] is
    an absent field.  Arrays and objects are represented by their
    reference: two of them are the same [Map] key only when they are
    the same object. *)
Inductive JsValue : Type :=
  | VUndefined
  | VNull
  | VBool (b : bool)
  | VNumber (n : JsNumber)
  | VString (s : string)
  | VObject (ref : positive).

#[global] Instance JsNumber_eq_dec : EqDecision JsNumber.
Proof. solve_decision. Defined.

#[global] Instance JsValue_eq_dec : EqDecision JsValue.
Proof. solve_decision. Defined.

Definition JsNumber_encode (n : JsNumber) : Qc + (unit + (unit + unit)) :=
  match n with
  | Finite q => inl q
  | PosInfinity => inr (inl tt)
  | NegInfinity => inr (inr (inl tt))
  | NaN => inr (inr (inr tt))
  end.

Definition JsNumber_decode (x : Qc + (unit + (unit + unit))) : JsNumber :=
  match x with
  | inl q => Finite q
  | inr (inl _) => PosInfinity
  | inr (inr (inl _)) => NegInfinity
  | inr (inr (inr _)) => NaN
  end.

#[global] Instance JsNumber_countable : Countable JsNumber.
Proof.
  refine (inj_countable' JsNumber_encode JsNumber_decode _).
  intros []; reflexivity.
Defined.

Definition JsValue_encode (v : JsValue)
  : unit + (unit + (bool + (JsNumber + (string + positive)))) :=
  match v with
  | VUndefined => inl tt
  | VNull => inr (inl tt)
  | VBool b => inr (inr (inl b))
  | VNumber n => inr (inr (inr (inl n)))
  | VString s => inr (inr (inr (inr (inl s))))
  | VObject r => inr (inr (inr (inr (inr r))))
  end.

Definition JsValue_decode
  (x : unit + (unit + (bool + (JsNumber + (string + positive))))) : JsValue :=
  match x with
  | inl _ => VUndefined
  | inr (inl _) => VNull
  | inr (inr (inl b)) => VBool b
  | inr (inr (inr (inl n))) => VNumber n
  | inr (inr (inr (inr (inl s)))) => VString s
  | inr (inr (inr (inr (inr r)))) => VObject r
  end.

#[global] Instance JsValue_countable : Countable JsValue.
Proof.
  refine (inj_countable' JsValue_encode JsValue_decode _).
  intros []; reflexivity.
Defined.

(** [!v] is [negb (truthy v)]: the falsy values are [undefined], [null],
    [false], [0], [NaN] and the empty string. *)
Definition truthy (v : JsValue) : bool :=
  match v with
  | VUndefined => false
  | VNull => false
  | VBool b => b
  | VNumber (Finite q) => negb (bool_decide (q = Q2Qc 0))
  | VNumber NaN => false
  | VNumber _ => true
  | VString s => negb (bool_decide (s = ""))
  | VObject _ => true
  end.

(** [v === undefined]. *)
Definition isUndefined (v : JsValue) : bool :=
  match v with
  | VUndefined => true
  | _ => false
  end.

(** [Math.abs] on numbers. *)
Definition Math_abs (n : JsNumber) : JsNumber :=
  match n with
  | Finite q => Finite (Qcabs q)
  | PosInfinity => PosInfinity
  | NegInfinity => PosInfinity
  | NaN => NaN
  end.

(** [n > bound] for an integer literal [bound]; false on NaN. *)
Definition gtLiteral (n : JsNumber) (bound : Z) : bool :=
  match n with
  | Finite q => bool_decide (Q2Qc (inject_Z bound) < q)%Qc
  | PosInfinity => true
  | NegInfinity => false
  | NaN => false
  end.

(** [ToNumber], applied implicitly by [Math.abs].  The conversion of a
    string ([StringToNumber] of ECMAScript) and of an array or object
    (through [ToPrimitive]) are functions of the language runtime. *)
Section ToNumber.
Variable StringToNumber : string → JsNumber.
Variable ObjectToNumber : positive → JsNumber.

Definition ToNumber (v : JsValue) : JsNumber :=
  match v with
  | VUndefined => NaN
  | VNull => Finite (Q2Qc 0)
  | VBool true => Finite (Q2Qc 1)
  | VBool false => Finite (Q2Qc 0)
  | VNumber n => n
  | VString s => StringToNumber s
  | VObject r => ObjectToNumber r
  end.
End ToNumber.

(** [s.startsWith(p)]. *)
Fixpoint startsWith (s p : string) {struct p} : bool :=
  match p with
  | EmptyString => true
  | String c p' =>
      match s with
      | EmptyString => false
      | String d s' => Ascii.eqb d c && startsWith s' p'
      end
  end.

(** [s.includes(sub)]: [sub] occurs at some position of [s]. *)
Fixpoint includes (s sub : string) : bool :=
  startsWith s sub
  || match s with
     | EmptyString => false
     | String _ s' => includes s' sub
     end.

(** ** Responses *)

(** A JSON value of a response body. *)
#[warnings="-register-all"]
Inductive Json : Type :=
  | JBool (b : bool)
  | JNum (z : Z)
  | JStr (s : string)
  | JDate (ms : Z)
  | JValue (v : JsValue)
  | JArr (items : list Json)
  | JObj (fields : list (string * Json)).

(** [res.status(status).json(body)]; [res.json(body)] answers 200. *)
Record Response : Type := mkResponse {
  status : Z;
  body : list (string * Json)
}.

(** The value of a field of a JSON object, [None] when it has none. *)
Fixpoint getField (name : string) (fields : list (string * Json)) : option Json :=
  match fields with
  | [] => None
  | (k, v) :: rest => if bool_decide (k = name) then Some v else getField name rest
  end.

(** ** The tracker table *)

(** A value of the [deviceStates] map. *)
Record DeviceState : Type := mkDeviceState {
  triggered : bool;
  expires : Z;
  lastActive : Z
}.

(** ** The document store *)

Definition Document : Type := list (string * Json).

(** The argument of [new Coordinate({...})]. *)
Record Coordinate : Type := mkCoordinate {
  latitude : JsValue;
  longitude : JsValue;
  deviceId : JsValue;
  timestamp : Z
}.

(** Outcome of [await newCoordinate.save()]: the saved document, or the
    message of the error thrown. *)
Inductive SaveResult : Type :=
  | Saved (savedCoordinate : Document)
  | SaveFailed (message : string).

(** Outcome of [await Coordinate.find({deviceId}).sort({timestamp: -1}).lean()]. *)
Inductive FindResult : Type :=
  | Found (coordinates : list Document)
  | FindFailed (message : string).

(** The state of the process: the module-level [deviceStates] map and
    the documents persisted in the store. *)
Record ServerState : Type := mkServerState {
  deviceStates : gmap JsValue DeviceState;
  store : list Document
}.

(** The body of [POST /api/device/data] after destructuring. *)
Record DataBody : Type := mkDataBody {
  body_deviceId : JsValue;
  body_latitude : JsValue;
  body_longitude : JsValue
}.

(** ** The API key middleware (server.js, lines 28-37) *)

Definition unauthorized : Response :=
  mkResponse 401 [("error", JStr "Unauthorized: Invalid API key")].

(** [None] is [next()]; [Some r] ends the request with [r].
    [apiKey] is [req.headers['x-api-key']], [None] when the header is absent. *)
Definition apiKeyMiddleware (API_KEY : string) (path : string)
    (apiKey : option string) : option Response :=
  if startsWith path "/api" && negb (includes path "/status") then
    if bool_decide (apiKey ≠ Some API_KEY) then Some unauthorized else None
  else None.

(** ** POST /api/device/trigger (server.js, lines 73-104) *)

Definition deviceIdRequired : Response :=
  mkResponse 400 [("error", JStr "Device ID is required");
                  ("code", JStr "DEVICE_ID_REQUIRED")].

Definition triggerHandler (clock : nat → Z) (st : ServerState)
    (deviceId : JsValue) : Response * ServerState :=
  if negb (truthy deviceId) then (deviceIdRequired, st)
  else
    (mkResponse 200 [("message", JStr "Device triggered successfully");
                     ("status", JStr "active");
                     ("expiresIn", JNum 30000000)],
     mkServerState
       (<[deviceId := mkDeviceState true (clock 0%nat + 30000000) (clock 1%nat)]>
          (deviceStates st))
       (store st)).

(** ** POST /api/device/data (server.js, lines 111-165) *)

Definition invalidInput : Response :=
  mkResponse 400 [("error", JStr "Device ID, latitude and longitude are required");
                  ("code", JStr "INVALID_INPUT")].

Definition invalidCoordinates : Response :=
  mkResponse 400 [("error", JStr "Invalid coordinates");
                  ("code", JStr "INVALID_COORDINATES")].

Definition deviceNotActive : Response :=
  mkResponse 403 [("error", JStr "Device not triggered or trigger expired");
                  ("code", JStr "DEVICE_NOT_ACTIVE");
                  ("solution", JStr "Send trigger request first")].

Definition databaseError (message : string) : Response :=
  mkResponse 500 [("error", JStr message); ("code", JStr "DATABASE_ERROR")].

(** The guard of lines 133 and 212:
    [!deviceState?.triggered || deviceState.expires < Date.now()].
    The clock is read only when the entry exists and is triggered. *)
Definition notTriggeredOrExpired (deviceState : option DeviceState) (now : Z) : bool :=
  match deviceState with
  | None => true
  | Some s => negb (triggered s) || bool_decide (expires s < now)
  end.

Section DataHandler.
Variable StringToNumber : string → JsNumber.
Variable ObjectToNumber : positive → JsNumber.

(** [Math.abs(v) > bound]. *)
Definition absExceeds (v : JsValue) (bound : Z) : bool :=
  gtLiteral (Math_abs (ToNumber StringToNumber ObjectToNumber v)) bound.

Definition dataHandler (clock : nat → Z) (save : Coordinate → SaveResult)
    (st : ServerState) (req : DataBody) : Response * ServerState :=
  let deviceId := body_deviceId req in
  let latitude := body_latitude req in
  let longitude := body_longitude req in
  if negb (truthy deviceId) || isUndefined latitude || isUndefined longitude then
    (invalidInput, st)
  else if absExceeds latitude 90 || absExceeds longitude 180 then
    (invalidCoordinates, st)
  else
    let deviceState := deviceStates st !! deviceId in
    if notTriggeredOrExpired deviceState (clock 0%nat) then (deviceNotActive, st)
    else
      match deviceState with
      | None => (deviceNotActive, st)
      | Some s =>
          (* deviceState.lastActive = new Date(): the object held by the map *)
          let s' := mkDeviceState (triggered s) (expires s) (clock 1%nat) in
          let states' := <[deviceId := s']> (deviceStates st) in
          match save (mkCoordinate latitude longitude deviceId (clock 2%nat)) with
          | Saved savedCoordinate =>
              (mkResponse 201
                 (savedCoordinate ++ [("remainingTime", JNum (expires s' - clock 3%nat))]),
               mkServerState states' (store st ++ [savedCoordinate]))
          | SaveFailed message =>
              (databaseError message, mkServerState states' (store st))
          end
      end.
End DataHandler.

(** ** GET /api/device/status/:deviceId (server.js, lines 172-199) *)

(** Line 185: [deviceState.triggered && deviceState.expires > Date.now()]. *)
Definition isActive (deviceState : DeviceState) (now : Z) : bool :=
  triggered deviceState && bool_decide (expires deviceState > now).

Definition statusHandler (clock : nat → Z) (st : ServerState)
    (deviceId : string) : Response :=
  match deviceStates st !! VString deviceId with
  | None =>
      mkResponse 200 [("triggered", JBool false);
                      ("message", JStr "Device not triggered");
                      ("code", JStr "DEVICE_INACTIVE")]
  | Some deviceState =>
      let active := isActive deviceState (clock 0%nat) in
      mkResponse 200
        [("triggered", JBool active);
         ("expiresIn", JNum (if active then expires deviceState - clock 1%nat else 0));
         ("lastActive", JDate (lastActive deviceState));
         ("code", JStr (if active then "DEVICE_ACTIVE" else "DEVICE_EXPIRED"))]
  end.

(** ** GET /api/device/data/:deviceId (server.js, lines 206-245) *)

Definition noData : Response :=
  mkResponse 404 [("message", JStr "No data found for this device");
                  ("code", JStr "NO_DATA")].

Definition listHandler (clock : nat → Z) (find : string → FindResult)
    (st : ServerState) (deviceId : string) : Response :=
  let deviceState := deviceStates st !! VString deviceId in
  if notTriggeredOrExpired deviceState (clock 0%nat) then deviceNotActive
  else
    match deviceState with
    | None => deviceNotActive
    | Some s =>
        match find deviceId with
        | Found coordinates =>
            if bool_decide (length coordinates = 0%nat) then noData
            else
              mkResponse 200
                [("deviceId", JStr deviceId);
                 ("count", JNum (Z.of_nat (length coordinates)));
                 ("coordinates", JArr (map JObj coordinates));
                 ("remainingTime", JNum (expires s - clock 1%nat))]
        | FindFailed message => databaseError message
        end
    end.

(** A [GET /api/device/data/<deviceId>] request as the application
    serves it: the middleware first, then the route handler.  [deviceId]
    is one path segment, written without percent-encoding, so that
    [req.params.deviceId] is the text that follows the route prefix in
    [req.path]. *)
Definition getDeviceData (API_KEY : string) (apiKey : option string)
    (clock : nat → Z) (find : string → FindResult)
    (st : ServerState) (deviceId : string) : Response :=
  match apiKeyMiddleware API_KEY ("/api/device/data/" +:+ deviceId) apiKey with
  | Some r => r
  | None => listHandler clock find st deviceId
  end.

(** ** The two activity checks, on the table *)

(** The check of the data and listing handlers (TouchAndCheck in the
    specification): the request gets past the guard of lines 133/212. *)
Definition guardPasses (states : gmap JsValue DeviceState) (deviceId : JsValue)
    (now : Z) : bool :=
  negb (notTriggeredOrExpired (states !! deviceId) now).

(** The check of the status handler (IsActive in the specification): the
    [triggered] flag it reports, [false] for a missing entry. *)
Definition statusActive (states : gmap JsValue DeviceState) (deviceId : JsValue)
    (now : Z) : bool :=
  match states !! deviceId with
  | Some deviceState => isActive deviceState now
  | None => false
  end.

(** ** The periodic cleanup (server.js, lines 248-262) *)

(** One iteration of the loop over [deviceStates.entries()]. *)
Definition sweepStep (now : Z) (deviceId : JsValue) (state : DeviceState)
    (acc : gmap JsValue DeviceState * nat) : gmap JsValue DeviceState * nat :=
  if bool_decide (expires state < now) then (delete deviceId acc.1, S acc.2)
  else acc.

(** The callback of [setInterval]: the table after the loop and
    [cleanedCount]. *)
Definition sweep (now : Z) (states : gmap JsValue DeviceState)
    : gmap JsValue DeviceState * nat :=
  map_fold (sweepStep now) (states, 0%nat) states.

(** The test of the loop, as a predicate on an entry of the table. *)
Definition expiredBefore (now : Z) (kv : JsValue * DeviceState) : Prop :=
  expires kv.2 < now.

#[global] Instance expiredBefore_dec now kv : Decision (expiredBefore now kv).
Proof. unfold expiredBefore. apply _. Defined.

(** The cleanup as a transition of the process state; the count is only
    logged. *)
Definition cleanup (now : Z) (st : ServerState) : ServerState :=
  mkServerState (sweep now (deviceStates st)).1 (store st).

(** ** Runs of the process *)

(** What can change the process state: a trigger request, a data
    submission, a run of the cleanup.  The status and listing handlers
    only read it. *)
Inductive Event : Type :=
  | TriggerRequest (clock : nat → Z) (deviceId : JsValue)
  | DataRequest (clock : nat → Z) (save : Coordinate → SaveResult) (req : DataBody)
  | Cleanup (now : Z).

Section Run.
Variable StringToNumber : string → JsNumber.
Variable ObjectToNumber : positive → JsNumber.

Definition step (st : ServerState) (ev : Event) : ServerState :=
  match ev with
  | TriggerRequest clock deviceId => (triggerHandler clock st deviceId).2
  | DataRequest clock save req =>
      (dataHandler StringToNumber ObjectToNumber clock save st req).2
  | Cleanup now => cleanup now st
  end.

Definition run (st : ServerState) (evs : list Event) : ServerState :=
  fold_left step evs st.
End Run.

(** An event that is not a new activation of [deviceId] and that happens
    no later than the instant [now]. *)
Definition keepsWindow (deviceId : string) (now : Z) (ev : Event) : Prop :=
  match ev with
  | TriggerRequest _ k => k ≠ VString deviceId
  | DataRequest _ _ _ => True
  | Cleanup T => T ≤ now
  end.

(** The part of an entry that decides activity. *)
Definition window (s : DeviceState) : bool * Z := (triggered s, expires s).

(** ** Concrete inputs used by the examples *)

Definition constClock (t : Z) : nat → Z := λ _, t.

(** A store that accepts every document and returns it as written. *)
Definition saveAlways (c : Coordinate) : SaveResult :=
  Saved [("latitude", JValue (latitude c));
         ("longitude", JValue (longitude c));
         ("deviceId", JValue (deviceId c));
         ("timestamp", JDate (timestamp c))].

(** A store whose write fails. *)
Definition saveNever (c : Coordinate) : SaveResult :=
  SaveFailed "connection lost".

Definition findNothing (deviceId : string) : FindResult := Found [].

Definition noStringToNumber (s : string) : JsNumber := NaN.
Definition noObjectToNumber (r : positive) : JsNumber := NaN.

Definition num (z : Z) : JsValue := VNumber (Finite (Q2Qc (inject_Z z))).

Definition emptyState : ServerState := mkServerState ∅ [].

(** Device "d1", triggered, expiring at instant 1000. *)
Definition d1State : ServerState :=
  mkServerState {[ VString "d1" := mkDeviceState true 1000 0 ]} [].

(** ** Startup (server.js, lines 11-21 and 43-64) *)

Definition requiredEnvVars : list string := ["MONGODB_URI"; "PORT"; "API_KEY"].

(** [!process.env[envVar]]: the variable is unset or is the empty string.
    [env] is [process.env]: its values are strings. *)
Definition envMissing (env : gmap string string) (envVar : string) : bool :=
  match env !! envVar with
  | None => true
  | Some v => bool_decide (v = "")
  end.

(** The loop of lines 13-18 over [vars]: [Some envVar] when it reports
    [envVar] and calls [process.exit(1)], [None] when it completes. *)
Fixpoint validateEnv (env : gmap string string) (vars : list string) : option string :=
  match vars with
  | [] => None
  | envVar :: rest =>
      if envMissing env envVar then Some envVar else validateEnv env rest
  end.

(** [const PORT = process.env.PORT || 5000]: the string of the
    environment, or the number 5000. *)
Definition PORT (env : gmap string string) : string + Z :=
  match env !! "PORT" with
  | None => inr 5000
  | Some v => if bool_decide (v = "") then inr 5000 else inl v
  end.

(** How [connectDB] ends: the connection is made, or [process.exit(1)]. *)
Inductive Boot : Type :=
  | Connected
  | Exit1.

(** [connectDB(retries, interval)].  [connect k] tells whether the call
    of [mongoose.connect] number [k] of the process (from 0) succeeds;
    [calls] is the number of calls made so far.  The result carries the
    number of calls made in total and the milliseconds waited in
    [setTimeout]. *)
Fixpoint connectDB (connect : nat → bool) (calls : nat) (retries : nat)
    (interval : Z) : Boot * nat * Z :=
  if connect calls then (Connected, S calls, 0)
  else
    match retries with
    | S retries' =>
        let '(boot, made, waited) := connectDB connect (S calls) retries' interval in
        (boot, made, interval + waited)
    | O => (Exit1, S calls, 0)
    end.

(** [await connectDB()] of line 64, with the default arguments. *)
Definition connectDB_default (connect : nat → bool) : Boot * nat * Z :=
  connectDB connect 0 5 5000.

(** ** Requests through the middleware *)




(** ** Predicates on runs *)

(** An event that is neither a request for the key [k] nor a cleanup. *)
Definition leavesAlone (k : JsValue) (ev : Event) : Prop :=
  match ev with
  | TriggerRequest _ deviceId => deviceId ≠ k
  | DataRequest _ _ req => body_deviceId req ≠ k
  | Cleanup _ => False
  end.

(** The number of data submissions among the events. *)
Fixpoint submissions (evs : list Event) : nat :=
  match evs with
  | [] => 0
  | DataRequest _ _ _ :: rest => S (submissions rest)
  | _ :: rest => submissions rest
  end.

(** * Properties *)

(** ** Lookups and guards *)

Lemma notTriggeredOrExpired_Some (s : DeviceState) (now : Z) :
  notTriggeredOrExpired (Some s) now
  = negb (triggered s && bool_decide (expires s >= now)).
Proof.
  unfold notTriggeredOrExpired.
  destruct (triggered s); simpl; [|reflexivity].
  destruct (decide (expires s < now)) as [Hlt|Hge].
  - rewrite bool_decide_eq_true_2 by done.
    rewrite bool_decide_eq_false_2 by lia. reflexivity.
  - rewrite bool_decide_eq_false_2 by done.
    rewrite bool_decide_eq_true_2 by lia. reflexivity.
Qed.

(** Away from the instant [expires] itself the two activity checks of the
    handlers are each other's negation. *)
Lemma guards_agree_off_boundary (s : DeviceState) (now : Z) :
  now ≠ expires s →
  notTriggeredOrExpired (Some s) now = negb (isActive s now).
Proof.
  intros Hne. rewrite notTriggeredOrExpired_Some. unfold isActive.
  destruct (triggered s); simpl; [|reflexivity].
  f_equal. apply bool_decide_ext. lia.
Qed.

Lemma triggerHandler_entry (clock : nat → Z) (st : ServerState) (deviceId : JsValue) :
  truthy deviceId = true →
  deviceStates (triggerHandler clock st deviceId).2 !! deviceId
  = Some (mkDeviceState true (clock 0%nat + 30000000) (clock 1%nat)).
Proof.
  intros Ht. unfold triggerHandler. rewrite Ht. simpl.
  apply lookup_insert_eq.
Qed.

Lemma triggerHandler_other (clock : nat → Z) (st : ServerState) (deviceId k : JsValue) :
  k ≠ deviceId →
  deviceStates (triggerHandler clock st deviceId).2 !! k = deviceStates st !! k.
Proof.
  intros Hne. unfold triggerHandler.
  destruct (truthy deviceId); simpl; [|reflexivity].
  apply lookup_insert_ne. congruence.
Qed.

Lemma truthy_VString (s : string) : s ≠ "" → truthy (VString s) = true.
Proof.
  intros Hs. simpl. rewrite bool_decide_eq_false_2 by done. reflexivity.
Qed.

(** ** The cleanup loop *)

(** The loop run over the entries of [m], started from any table [M] and
    any count [c]: the keys whose entry in [m] is expired are deleted
    from [M], and each deletion is counted. *)
Lemma sweep_fold (now : Z) (M : gmap JsValue DeviceState) (c : nat)
    (m : gmap JsValue DeviceState) :
  (∀ k, (map_fold (sweepStep now) (M, c) m).1 !! k
        = match m !! k with
          | Some s => if bool_decide (expires s < now) then None else M !! k
          | None => M !! k
          end)
  ∧ (map_fold (sweepStep now) (M, c) m).2
    = (c + size (filter (expiredBefore now) m))%nat.
Proof.
  apply (map_fold_weak_ind
    (λ r m, (∀ k, r.1 !! k
                  = match m !! k with
                    | Some s => if bool_decide (expires s < now) then None else M !! k
                    | None => M !! k
                    end)
            ∧ r.2 = (c + size (filter (expiredBefore now) m))%nat)).
  - split.
    + intros k. rewrite lookup_empty. reflexivity.
    + rewrite map_filter_empty, map_size_empty. simpl. lia.
  - clear m. intros i x m r Hi [IHl IHc]. unfold sweepStep.
    destruct (decide (expires x < now)) as [Hx|Hx].
    + rewrite bool_decide_eq_true_2 by done. simpl. split.
      * intros k. destruct (decide (k = i)) as [->|Hne].
        -- rewrite lookup_delete_eq, lookup_insert_eq.
           rewrite bool_decide_eq_true_2 by done. reflexivity.
        -- rewrite lookup_delete_ne, lookup_insert_ne by congruence. apply IHl.
      * rewrite map_filter_insert_True by done.
        rewrite map_size_insert_None.
        -- rewrite IHc. lia.
        -- apply map_lookup_filter_None. left. exact Hi.
    + rewrite bool_decide_eq_false_2 by done. split.
      * intros k. destruct (decide (k = i)) as [->|Hne].
        -- rewrite lookup_insert_eq, bool_decide_eq_false_2 by done.
           rewrite IHl, Hi. reflexivity.
        -- rewrite lookup_insert_ne by congruence. apply IHl.
      * rewrite map_filter_insert_False by done.
        rewrite delete_id by exact Hi. exact IHc.
Qed.

Lemma sweep_lookup (now : Z) (m : gmap JsValue DeviceState) (k : JsValue) :
  (sweep now m).1 !! k
  = match m !! k with
    | Some s => if bool_decide (expires s < now) then None else Some s
    | None => None
    end.
Proof.
  unfold sweep. rewrite (proj1 (sweep_fold now m 0 m) k).
  destruct (m !! k); reflexivity.
Qed.

Lemma sweep_count (now : Z) (m : gmap JsValue DeviceState) :
  (sweep now m).2 = size (filter (expiredBefore now) m).
Proof.
  unfold sweep. rewrite (proj2 (sweep_fold now m 0 m)). reflexivity.
Qed.

(** ** The tracker: activation, status, cleanup *)

(** C5. Re-activating a device whose entry is still active overwrites the
    entry: activated at instant [t1], the new entry expires at
    [t1 + 30000000] exactly and has [lastActive = t1], whatever the
    previous entry held; the status asked at [t1] reports a remaining
    time of exactly 30000000. *)
Theorem retrigger_overwrites_window (st : ServerState) (deviceId : JsValue)
    (old : DeviceState) (t1 : Z) :
  truthy deviceId = true →
  deviceStates st !! deviceId = Some old →
  isActive old t1 = true →
  let st' := (triggerHandler (constClock t1) st deviceId).2 in
  deviceStates st' !! deviceId = Some (mkDeviceState true (t1 + 30000000) t1)
  ∧ (∀ d, deviceId = VString d →
       getField "expiresIn" (body (statusHandler (constClock t1) st' d))
       = Some (JNum 30000000)).
Proof.
  intros Ht _ _ st'.
  pose proof (triggerHandler_entry (constClock t1) st deviceId Ht) as Hentry.
  fold st' in Hentry. split; [exact Hentry|].
  intros d ->. unfold statusHandler. rewrite Hentry.
  unfold isActive, constClock. simpl.
  rewrite bool_decide_eq_true_2 by lia. simpl. do 2 f_equal. lia.
Qed.

Lemma retrigger_overwrites_window_witness :
  deviceStates (triggerHandler (constClock 400) d1State (VString "d1")).2
    !! VString "d1"
  = Some (mkDeviceState true 30000400 400).
Proof.
  apply (retrigger_overwrites_window d1State (VString "d1")
           (mkDeviceState true 1000 0) 400); reflexivity.
Defined.

Lemma statusHandler_no_entry (clock : nat → Z) (st : ServerState) (deviceId : string) :
  deviceStates st !! VString deviceId = None →
  statusHandler clock st deviceId
  = mkResponse 200 [("triggered", JBool false);
                    ("message", JStr "Device not triggered");
                    ("code", JStr "DEVICE_INACTIVE")].
Proof.
  intros Hnone. unfold statusHandler. rewrite Hnone. reflexivity.
Qed.

(** C7 (as amended). For a device with no entry in the table the status
    handler answers 200 with [triggered: false], the message
    "Device not triggered" and the code DEVICE_INACTIVE; the response
    has no [expiresIn] and no [lastActive] field. *)
Theorem status_unknown_device (clock : nat → Z) (st : ServerState) (deviceId : string) :
  deviceStates st !! VString deviceId = None →
  statusHandler clock st deviceId
  = mkResponse 200 [("triggered", JBool false);
                    ("message", JStr "Device not triggered");
                    ("code", JStr "DEVICE_INACTIVE")]
  ∧ getField "triggered" (body (statusHandler clock st deviceId)) = Some (JBool false)
  ∧ getField "expiresIn" (body (statusHandler clock st deviceId)) = None
  ∧ getField "lastActive" (body (statusHandler clock st deviceId)) = None.
Proof.
  intros Hnone. rewrite (statusHandler_no_entry clock st deviceId Hnone).
  repeat split.
Qed.

Lemma status_unknown_device_witness :
  getField "expiresIn" (body (statusHandler (constClock 5) emptyState "d1")) = None.
Proof.
  apply (status_unknown_device (constClock 5) emptyState "d1"). reflexivity.
Defined.

(** C7 as stated fails: for a device that was never activated the
    remaining-time field of the status response is not 0, it is absent. *)
Lemma status_unknown_device_no_remaining :
  getField "expiresIn" (body (statusHandler (constClock 5) emptyState "d1"))
  ≠ Some (JNum 0).
Proof. vm_compute. discriminate. Qed.

(** A data submission never changes [triggered] or [expires] of any
    entry, and neither creates nor removes an entry. *)
Lemma dataHandler_window S2N O2N (clock : nat → Z) (save : Coordinate → SaveResult)
    (st : ServerState) (req : DataBody) (k : JsValue) :
  window <$> deviceStates (dataHandler S2N O2N clock save st req).2 !! k
  = window <$> deviceStates st !! k.
Proof.
  unfold dataHandler.
  destruct (negb (truthy (body_deviceId req)) || isUndefined (body_latitude req)
            || isUndefined (body_longitude req)); [reflexivity|].
  destruct (absExceeds _ _ _ 90 || absExceeds _ _ _ 180); [reflexivity|].
  destruct (notTriggeredOrExpired _ _); [reflexivity|].
  destruct (deviceStates st !! body_deviceId req) as [s|] eqn:Hs; [|reflexivity].
  assert (Hk : window <$> <[body_deviceId req :=
                  mkDeviceState (triggered s) (expires s) (clock 1%nat)]>
                 (deviceStates st) !! k
               = window <$> deviceStates st !! k).
  { destruct (decide (k = body_deviceId req)) as [->|Hne].
    - rewrite lookup_insert_eq, Hs. reflexivity.
    - rewrite lookup_insert_ne by congruence. reflexivity. }
  destruct (save _); simpl; exact Hk.
Qed.

(** After an activation at [t0], along any run without a new activation
    and whose cleanups happen no later than [now]: the entry is present
    with its window intact, or it was cleaned up and [now] is past the
    window. *)
Lemma run_keeps_window S2N O2N (deviceId : string) (t0 now : Z) (evs : list Event) :
  Forall (keepsWindow deviceId now) evs →
  ∀ st,
    (window <$> deviceStates st !! VString deviceId = Some (true, t0 + 30000000)
     ∨ (deviceStates st !! VString deviceId = None ∧ t0 + 30000000 < now)) →
    (window <$> deviceStates (run S2N O2N st evs) !! VString deviceId
       = Some (true, t0 + 30000000)
     ∨ (deviceStates (run S2N O2N st evs) !! VString deviceId = None
        ∧ t0 + 30000000 < now)).
Proof.
  induction 1 as [|ev evs Hev _ IH]; intros st Hst; [exact Hst|].
  simpl. apply IH. clear IH.
  destruct ev as [clock k|clock save req|T]; simpl in *.
  - rewrite triggerHandler_other by congruence. exact Hst.
  - destruct Hst as [Hst|[Hst Hlt]].
    + left. rewrite dataHandler_window. exact Hst.
    + right. split; [|exact Hlt].
      pose proof (dataHandler_window S2N O2N clock save st req (VString deviceId)) as Hw.
      rewrite Hst in Hw. simpl in Hw.
      destruct (deviceStates (dataHandler S2N O2N clock save st req).2
                  !! VString deviceId) eqn:Hafter; [discriminate|reflexivity].
  - rewrite sweep_lookup.
    destruct Hst as [Hst|[Hst Hlt]].
    + destruct (deviceStates st !! VString deviceId) as [s|]; [|discriminate].
      injection Hst as Htr Hex.
      destruct (decide (expires s < T)) as [Hlt|Hge].
      * rewrite bool_decide_eq_true_2 by done. right. split; [reflexivity|lia].
      * rewrite bool_decide_eq_false_2 by done. left. simpl.
        unfold window. rewrite Htr, Hex. reflexivity.
    + rewrite Hst. right. split; [reflexivity|exact Hlt].
Qed.

Lemma status_triggered_field (clock : nat → Z) (st : ServerState) (deviceId : string) :
  getField "triggered" (body (statusHandler clock st deviceId))
  = Some (JBool (match deviceStates st !! VString deviceId with
                 | Some s => isActive s (clock 0%nat)
                 | None => false
                 end)).
Proof.
  unfold statusHandler. destruct (deviceStates st !! VString deviceId); reflexivity.
Qed.

(** C4. A device is activated at [t0 = ct 0]; then any number of other
    requests and cleanups happen, none of them a new activation of the
    device.  The status handler, reading the clock at [now = cs 0],
    reports [triggered: true] when [now < t0 + 30000000] and
    [triggered: false] when [now >= t0 + 30000000]. *)
Theorem active_exactly_within_window S2N O2N (st : ServerState) (deviceId : string)
    (ct : nat → Z) (evs : list Event) (cs : nat → Z) :
  deviceId ≠ "" →
  Forall (keepsWindow deviceId (cs 0%nat)) evs →
  let st' := run S2N O2N (triggerHandler ct st (VString deviceId)).2 evs in
  (cs 0%nat < ct 0%nat + 30000000 →
     getField "triggered" (body (statusHandler cs st' deviceId)) = Some (JBool true))
  ∧ (cs 0%nat >= ct 0%nat + 30000000 →
     getField "triggered" (body (statusHandler cs st' deviceId)) = Some (JBool false)).
Proof.
  intros Hid Hevs st'.
  assert (Hinv : window <$> deviceStates st' !! VString deviceId
                   = Some (true, ct 0%nat + 30000000)
                 ∨ (deviceStates st' !! VString deviceId = None
                    ∧ ct 0%nat + 30000000 < cs 0%nat)).
  { apply run_keeps_window; [exact Hevs|]. left.
    rewrite triggerHandler_entry by (apply truthy_VString; exact Hid).
    reflexivity. }
  rewrite !status_triggered_field.
  destruct Hinv as [Hin|[Hout Hlt]].
  - destruct (deviceStates st' !! VString deviceId) as [s|]; [|discriminate].
    injection Hin as Htr Hex. unfold isActive. rewrite Htr, Hex. simpl.
    split; intros Hnow.
    + rewrite bool_decide_eq_true_2 by lia. reflexivity.
    + rewrite bool_decide_eq_false_2 by lia. reflexivity.
  - rewrite Hout. split; intros Hnow; [lia|reflexivity].
Qed.

Lemma active_exactly_within_window_witness :
  getField "triggered"
    (body (statusHandler (constClock 100)
             (run noStringToNumber noObjectToNumber
                (triggerHandler (constClock 0) emptyState (VString "d1")).2
                [DataRequest (constClock 10) saveAlways
                   (mkDataBody (VString "d1") (num 10) (num 20));
                 Cleanup 50])
             "d1"))
  = Some (JBool true).
Proof.
  apply (active_exactly_within_window noStringToNumber noObjectToNumber
           emptyState "d1" (constClock 0)
           [DataRequest (constClock 10) saveAlways
              (mkDataBody (VString "d1") (num 10) (num 20));
            Cleanup 50]
           (constClock 100)).
  - discriminate.
  - apply Forall_cons_2; [exact I|].
    apply Forall_cons_2; [|apply Forall_nil_2].
    unfold keepsWindow, constClock. lia.
  - unfold constClock. lia.
Defined.

(** C8. The cleanup run at instant [T] deletes exactly the entries with
    [expires < T]: such an entry is absent afterwards, an entry with
    [expires >= T] is present afterwards with the same [triggered],
    [expires] and [lastActive], no entry appears, and [cleanedCount] is
    the number of entries deleted. *)
Theorem sweep_deletes_exactly_expired (T : Z) (m : gmap JsValue DeviceState) :
  (∀ k s, m !! k = Some s → expires s < T → (sweep T m).1 !! k = None)
  ∧ (∀ k s, m !! k = Some s → expires s >= T → (sweep T m).1 !! k = Some s)
  ∧ (∀ k, m !! k = None → (sweep T m).1 !! k = None)
  ∧ (sweep T m).2 = size (filter (expiredBefore T) m)
  ∧ (size (sweep T m).1 + (sweep T m).2 = size m)%nat.
Proof.
  assert (Hkeep : (sweep T m).1 = filter (λ kv, ¬ expiredBefore T kv) m).
  { apply map_eq. intros k. rewrite sweep_lookup.
    destruct (m !! k) as [s|] eqn:Hk.
    - destruct (decide (expires s < T)) as [Hlt|Hge].
      + rewrite bool_decide_eq_true_2 by done. symmetry.
        apply map_lookup_filter_None. right. intros s' Hs' Hn.
        rewrite Hk in Hs'. injection Hs' as <-. apply Hn. exact Hlt.
      + rewrite bool_decide_eq_false_2 by done. symmetry.
        apply map_lookup_filter_Some. split; [exact Hk|exact Hge].
    - symmetry. apply map_lookup_filter_None. left. exact Hk. }
  repeat split.
  - intros k s Hk Hlt. rewrite sweep_lookup, Hk.
    rewrite bool_decide_eq_true_2 by done. reflexivity.
  - intros k s Hk Hge. rewrite sweep_lookup, Hk.
    rewrite bool_decide_eq_false_2 by lia. reflexivity.
  - intros k Hk. rewrite sweep_lookup, Hk. reflexivity.
  - apply sweep_count.
  - rewrite sweep_count, Hkeep.
    rewrite <- (map_filter_union_complement (expiredBefore T) m) at 3.
    rewrite map_size_disj_union by apply map_disjoint_filter_complement.
    lia.
Qed.

Lemma example_cleanup :
  sweep 1500 {[ VString "d1" := mkDeviceState true 1000 0;
                VString "d2" := mkDeviceState true 1500 7;
                num 3 := mkDeviceState true 20 1 ]}
  = ({[ VString "d2" := mkDeviceState true 1500 7 ]}, 2%nat).
Proof. vm_compute. reflexivity. Qed.

(** C2 (as amended). Let the entry of a device be expired ([expires < T])
    and let the status handler read the clock at or after [T].  Whether
    the entry is still in the table or the cleanup run at [T] has
    removed it, the response has [triggered: false].  The other fields
    differ: with the entry present the response carries [expiresIn: 0],
    the stored [lastActive] and the code DEVICE_EXPIRED; after the
    removal it carries a message and the code DEVICE_INACTIVE, and
    neither [expiresIn] nor [lastActive]. *)
Theorem status_expired_and_swept (clock : nat → Z) (st : ServerState)
    (deviceId : string) (s : DeviceState) (T : Z) :
  deviceStates st !! VString deviceId = Some s →
  expires s < T →
  T ≤ clock 0%nat →
  statusHandler clock st deviceId
  = mkResponse 200 [("triggered", JBool false);
                    ("expiresIn", JNum 0);
                    ("lastActive", JDate (lastActive s));
                    ("code", JStr "DEVICE_EXPIRED")]
  ∧ statusHandler clock (cleanup T st) deviceId
    = mkResponse 200 [("triggered", JBool false);
                      ("message", JStr "Device not triggered");
                      ("code", JStr "DEVICE_INACTIVE")].
Proof.
  intros Hs Hlt Hnow. split.
  - unfold statusHandler. rewrite Hs.
    assert (Hinactive : isActive s (clock 0%nat) = false).
    { unfold isActive. rewrite bool_decide_eq_false_2 by lia.
      apply andb_false_r. }
    rewrite Hinactive. reflexivity.
  - apply statusHandler_no_entry. unfold cleanup. simpl.
    rewrite sweep_lookup, Hs. rewrite bool_decide_eq_true_2 by done.
    reflexivity.
Qed.

Lemma status_expired_and_swept_witness :
  statusHandler (constClock 2000) d1State "d1"
  = mkResponse 200 [("triggered", JBool false);
                    ("expiresIn", JNum 0);
                    ("lastActive", JDate 0);
                    ("code", JStr "DEVICE_EXPIRED")]
  ∧ statusHandler (constClock 2000) (cleanup 1500 d1State) "d1"
    = mkResponse 200 [("triggered", JBool false);
                      ("message", JStr "Device not triggered");
                      ("code", JStr "DEVICE_INACTIVE")].
Proof.
  apply (status_expired_and_swept (constClock 2000) d1State "d1"
           (mkDeviceState true 1000 0) 1500).
  - reflexivity.
  - simpl. lia.
  - unfold constClock. lia.
Defined.

(** C2 as stated fails: device "d1" expired at 1000, the status is asked
    at 2000, before and after the cleanup run at 1500; the responses
    differ in the remaining time, in [lastActive] and in the code. *)
Lemma status_differs_once_swept :
  ¬ (let before := body (statusHandler (constClock 2000) d1State "d1") in
     let after := body (statusHandler (constClock 2000) (cleanup 1500 d1State) "d1") in
     getField "triggered" before = getField "triggered" after
     ∧ getField "expiresIn" before = getField "expiresIn" after
     ∧ getField "lastActive" before = getField "lastActive" after
     ∧ getField "code" before = getField "code" after).
Proof.
  vm_compute. intros (_ & Hremaining & _). discriminate Hremaining.
Qed.

(** ** The two activity checks at the instant of expiry *)

(** C1. The check of the data and listing handlers and the check of the
    status handler agree at every instant other than [expires], and
    disagree at [now = expires] of a triggered entry: there the guard of
    lines 133/212 lets the request through while the status handler
    computes [isActive = false].  Device "d1" expires at 1000 and the
    handlers read the clock at 1000: the submission is stored (201), the
    listing gets past the guard (404 NO_DATA from the empty store, not
    403), and the status response says [triggered: false],
    DEVICE_EXPIRED. *)
Theorem checks_disagree_at_expiry :
  (∀ (states : gmap JsValue DeviceState) deviceId s,
     states !! deviceId = Some s →
     triggered s = true →
     guardPasses states deviceId (expires s) = true
     ∧ statusActive states deviceId (expires s) = false)
  ∧ (∀ (states : gmap JsValue DeviceState) deviceId now,
       (∀ s, states !! deviceId = Some s → now ≠ expires s) →
       guardPasses states deviceId now = statusActive states deviceId now)
  ∧ status (dataHandler noStringToNumber noObjectToNumber (constClock 1000)
              saveAlways d1State
              (mkDataBody (VString "d1") (num 10) (num 20))).1 = 201
  ∧ listHandler (constClock 1000) findNothing d1State "d1" = noData
  ∧ statusHandler (constClock 1000) d1State "d1"
    = mkResponse 200 [("triggered", JBool false);
                      ("expiresIn", JNum 0);
                      ("lastActive", JDate 0);
                      ("code", JStr "DEVICE_EXPIRED")].
Proof.
  split; [|split; [|repeat split; vm_compute; reflexivity]].
  - intros states deviceId s Hs Htr. unfold guardPasses, statusActive.
    rewrite Hs. unfold notTriggeredOrExpired, isActive. rewrite Htr. simpl.
    rewrite !bool_decide_eq_false_2 by lia. split; reflexivity.
  - intros states deviceId now Hne. unfold guardPasses, statusActive.
    destruct (states !! deviceId) as [s|] eqn:Hs; [|reflexivity].
    rewrite guards_agree_off_boundary by (apply Hne; reflexivity).
    apply negb_involutive.
Qed.

(** ** The data submission handler *)

Lemma isUndefined_false (v : JsValue) : v ≠ VUndefined → isUndefined v = false.
Proof. destruct v; simpl; congruence. Qed.

Lemma isUndefined_true (v : JsValue) : isUndefined v = true ↔ v = VUndefined.
Proof. destruct v; simpl; split; congruence. Qed.

(** The handler once the missing-field check has passed. *)
Lemma dataHandler_fields_present S2N O2N (clock : nat → Z)
    (save : Coordinate → SaveResult) (st : ServerState) (req : DataBody) :
  truthy (body_deviceId req) = true →
  body_latitude req ≠ VUndefined →
  body_longitude req ≠ VUndefined →
  dataHandler S2N O2N clock save st req
  = if absExceeds S2N O2N (body_latitude req) 90
       || absExceeds S2N O2N (body_longitude req) 180
    then (invalidCoordinates, st)
    else
      match deviceStates st !! body_deviceId req with
      | None => (deviceNotActive, st)
      | Some s =>
          if notTriggeredOrExpired (Some s) (clock 0%nat) then (deviceNotActive, st)
          else
            let states' :=
              <[body_deviceId req := mkDeviceState (triggered s) (expires s) (clock 1%nat)]>
                (deviceStates st) in
            match save (mkCoordinate (body_latitude req) (body_longitude req)
                          (body_deviceId req) (clock 2%nat)) with
            | Saved savedCoordinate =>
                (mkResponse 201
                   (savedCoordinate
                      ++ [("remainingTime", JNum (expires s - clock 3%nat))]),
                 mkServerState states' (store st ++ [savedCoordinate]))
            | SaveFailed message =>
                (databaseError message, mkServerState states' (store st))
            end
      end.
Proof.
  intros Hid Hlat Hlon. unfold dataHandler.
  rewrite Hid, (isUndefined_false _ Hlat), (isUndefined_false _ Hlon). simpl.
  destruct (absExceeds _ _ _ 90 || absExceeds _ _ _ 180); [reflexivity|].
  destruct (deviceStates st !! body_deviceId req) as [s|]; reflexivity.
Qed.

Lemma dataHandler_out_of_range S2N O2N (clock : nat → Z)
    (save : Coordinate → SaveResult) (st : ServerState) (req : DataBody) :
  truthy (body_deviceId req) = true →
  body_latitude req ≠ VUndefined →
  body_longitude req ≠ VUndefined →
  absExceeds S2N O2N (body_latitude req) 90
  || absExceeds S2N O2N (body_longitude req) 180 = true →
  dataHandler S2N O2N clock save st req = (invalidCoordinates, st).
Proof.
  intros Hid Hlat Hlon Hrange.
  rewrite dataHandler_fields_present by assumption.
  rewrite Hrange. reflexivity.
Qed.

(** C6. A submission whose three fields pass the missing-field check and
    with [Math.abs(latitude) > 90] or [Math.abs(longitude) > 180] is
    answered 400 INVALID_COORDINATES, whatever the table holds for the
    device; the process state (table and store) is unchanged. *)
Theorem out_of_range_coordinates_rejected S2N O2N (clock : nat → Z)
    (save : Coordinate → SaveResult) (st : ServerState) (req : DataBody) :
  truthy (body_deviceId req) = true →
  body_latitude req ≠ VUndefined →
  body_longitude req ≠ VUndefined →
  absExceeds S2N O2N (body_latitude req) 90 = true
  ∨ absExceeds S2N O2N (body_longitude req) 180 = true →
  dataHandler S2N O2N clock save st req = (invalidCoordinates, st).
Proof.
  intros Hid Hlat Hlon Hrange.
  apply dataHandler_out_of_range; try assumption.
  apply orb_true_iff. exact Hrange.
Qed.

Lemma out_of_range_coordinates_rejected_witness :
  dataHandler noStringToNumber noObjectToNumber (constClock 10) saveAlways d1State
    (mkDataBody (VString "d1") (num 999) (num 20))
  = (invalidCoordinates, d1State).
Proof.
  apply (out_of_range_coordinates_rejected noStringToNumber noObjectToNumber
           (constClock 10) saveAlways d1State
           (mkDataBody (VString "d1") (num 999) (num 20))).
  - reflexivity.
  - discriminate.
  - discriminate.
  - left. vm_compute. reflexivity.
Defined.

(** C10. A submission passes both validations and finds the device
    active.  Then the entry of the device has [lastActive] set to the
    instant read at line 142 and the same [triggered] and [expires],
    whether the store write succeeds or fails.  When the write fails the
    response is 500 DATABASE_ERROR and the store is unchanged; when it
    succeeds the response is 201 and the store has one more document. *)
Theorem lastActive_kept_when_save_fails S2N O2N (clock : nat → Z)
    (save : Coordinate → SaveResult) (st : ServerState) (req : DataBody)
    (s : DeviceState) :
  truthy (body_deviceId req) = true →
  body_latitude req ≠ VUndefined →
  body_longitude req ≠ VUndefined →
  absExceeds S2N O2N (body_latitude req) 90 = false →
  absExceeds S2N O2N (body_longitude req) 180 = false →
  deviceStates st !! body_deviceId req = Some s →
  notTriggeredOrExpired (Some s) (clock 0%nat) = false →
  let r := dataHandler S2N O2N clock save st req in
  deviceStates r.2 !! body_deviceId req
  = Some (mkDeviceState (triggered s) (expires s) (clock 1%nat))
  ∧ match save (mkCoordinate (body_latitude req) (body_longitude req)
                  (body_deviceId req) (clock 2%nat)) with
    | SaveFailed message =>
        r.1 = databaseError message ∧ store r.2 = store st
    | Saved savedCoordinate =>
        r.1 = mkResponse 201
                (savedCoordinate
                   ++ [("remainingTime", JNum (expires s - clock 3%nat))])
        ∧ store r.2 = store st ++ [savedCoordinate]
    end.
Proof.
  intros Hid Hlat Hlon Hla Hlo Hs Hactive r. subst r.
  rewrite dataHandler_fields_present by assumption.
  rewrite Hla, Hlo, Hs, Hactive. simpl.
  destruct (save _); simpl; (split; [apply lookup_insert_eq|split; reflexivity]).
Qed.

Lemma lastActive_kept_when_save_fails_witness :
  let r := dataHandler noStringToNumber noObjectToNumber
             (λ i, 100 + Z.of_nat i) saveNever d1State
             (mkDataBody (VString "d1") (num 10) (num 20)) in
  deviceStates r.2 !! VString "d1" = Some (mkDeviceState true 1000 101)
  ∧ r.1 = databaseError "connection lost" ∧ store r.2 = [].
Proof.
  apply (lastActive_kept_when_save_fails noStringToNumber noObjectToNumber
           (λ i, 100 + Z.of_nat i) saveNever d1State
           (mkDataBody (VString "d1") (num 10) (num 20))
           (mkDeviceState true 1000 0));
    try reflexivity; discriminate.
Defined.

(** Every response of the handler after the missing-field check differs
    from 400 INVALID_INPUT. *)
Lemma dataHandler_fields_present_not_invalidInput S2N O2N (clock : nat → Z)
    (save : Coordinate → SaveResult) (st : ServerState) (req : DataBody) :
  truthy (body_deviceId req) = true →
  body_latitude req ≠ VUndefined →
  body_longitude req ≠ VUndefined →
  (dataHandler S2N O2N clock save st req).1 ≠ invalidInput.
Proof.
  intros Hid Hlat Hlon.
  rewrite dataHandler_fields_present by assumption.
  destruct (absExceeds _ _ _ 90 || absExceeds _ _ _ 180); [discriminate|].
  destruct (deviceStates st !! body_deviceId req) as [s|]; [|discriminate].
  destruct (notTriggeredOrExpired _ _); [discriminate|].
  destruct (save _); discriminate.
Qed.

(** C9. The handler answers 400 INVALID_INPUT exactly when [deviceId] is
    falsy or [latitude] or [longitude] is [undefined].  An empty-string
    [deviceId] is rejected; with a truthy [deviceId], coordinates that
    are [0] or [null] pass this check, and the range validation that
    follows is applied to them. *)
Theorem invalid_input_iff_missing S2N O2N (clock : nat → Z)
    (save : Coordinate → SaveResult) (st : ServerState) :
  (∀ req,
     (dataHandler S2N O2N clock save st req).1 = invalidInput
     ↔ truthy (body_deviceId req) = false
       ∨ body_latitude req = VUndefined
       ∨ body_longitude req = VUndefined)
  ∧ (∀ latitude longitude,
       dataHandler S2N O2N clock save st (mkDataBody (VString "") latitude longitude)
       = (invalidInput, st))
  ∧ (∀ deviceId latitude longitude,
       truthy deviceId = true →
       latitude = num 0 ∨ latitude = VNull →
       longitude = num 0 ∨ longitude = VNull →
       (dataHandler S2N O2N clock save st (mkDataBody deviceId latitude longitude)).1
       ≠ invalidInput)
  ∧ (∀ deviceId latitude,
       truthy deviceId = true →
       latitude = num 0 ∨ latitude = VNull →
       dataHandler S2N O2N clock save st (mkDataBody deviceId latitude (num 200))
       = (invalidCoordinates, st)).
Proof.
  repeat split.
  - intros Hr.
    destruct (truthy (body_deviceId req)) eqn:Hid; [|left; reflexivity].
    destruct (decide (body_latitude req = VUndefined)) as [|Hlat]; [tauto|].
    destruct (decide (body_longitude req = VUndefined)) as [|Hlon]; [tauto|].
    exfalso. revert Hr.
    apply dataHandler_fields_present_not_invalidInput; assumption.
  - intros Hmissing. unfold dataHandler.
    destruct Hmissing as [-> | [-> | ->]]; simpl.
    + reflexivity.
    + rewrite orb_true_r. reflexivity.
    + rewrite orb_true_r. reflexivity.
  - intros deviceId latitude longitude Hid Hlat Hlon.
    apply dataHandler_fields_present_not_invalidInput; simpl.
    + exact Hid.
    + destruct Hlat as [-> | ->]; discriminate.
    + destruct Hlon as [-> | ->]; discriminate.
  - intros deviceId latitude Hid Hlat.
    apply dataHandler_out_of_range; simpl.
    + exact Hid.
    + destruct Hlat as [-> | ->]; discriminate.
    + discriminate.
    + apply orb_true_iff. right. vm_compute. reflexivity.
Qed.

(** ** The API key middleware *)

Lemma append_nil (s : string) : "" +:+ s = s.
Proof. reflexivity. Qed.

Lemma append_cons (c : Ascii.ascii) (a b : string) :
  String c a +:+ b = String c (a +:+ b).
Proof. reflexivity. Qed.

Lemma append_assoc (a b c : string) : (a +:+ b) +:+ c = a +:+ b +:+ c.
Proof.
  induction a as [|x a IH]; [reflexivity|].
  rewrite !append_cons, IH. reflexivity.
Qed.

Lemma startsWith_spec (p s : string) :
  startsWith s p = true ↔ ∃ rest, s = p +:+ rest.
Proof.
  revert s. induction p as [|c p IH]; intros s; simpl.
  - split; [intros _; exists s; reflexivity|reflexivity].
  - destruct s as [|d s]; [split; [discriminate|intros [rest Hr]; discriminate]|].
    rewrite andb_true_iff, IH. split.
    + intros [Hc [rest ->]]. apply Ascii.eqb_eq in Hc as ->.
      exists rest. reflexivity.
    + intros [rest Hr]. rewrite append_cons in Hr. injection Hr as -> ->.
      split; [apply Ascii.eqb_refl|exists rest; reflexivity].
Qed.

(** [includes] is the substring test: [sub] occurs in [s] when
    [s = pre ++ sub ++ post] for some [pre] and [post]. *)
Lemma includes_spec (sub s : string) :
  includes s sub = true ↔ ∃ pre post, s = pre +:+ sub +:+ post.
Proof.
  induction s as [|d s IH].
  - simpl. rewrite orb_false_r, startsWith_spec. split.
    + intros [rest Hr]. exists "", rest. exact Hr.
    + intros [[|c pre] [post Hs]]; [exists post; exact Hs|discriminate].
  - change (includes (String d s) sub)
      with (startsWith (String d s) sub || includes s sub).
    rewrite orb_true_iff, startsWith_spec, IH. split.
    + intros [[rest Hr]|(pre & post & ->)].
      * exists "", rest. exact Hr.
      * exists (String d pre), post. reflexivity.
    + intros [[|c pre] [post Hs]].
      * left. exists post. exact Hs.
      * right. rewrite append_cons in Hs. injection Hs as -> ->.
        exists pre, post. reflexivity.
Qed.

Lemma startsWith_cons (c : Ascii.ascii) (s p : string) :
  startsWith (String c s) (String c p) = startsWith s p.
Proof. simpl. rewrite Ascii.eqb_refl. reflexivity. Qed.

Lemma includes_cons (d : Ascii.ascii) (s sub : string) :
  includes (String d s) sub = startsWith (String d s) sub || includes s sub.
Proof. reflexivity. Qed.

Lemma includes_cons_false (d : Ascii.ascii) (s sub : string) :
  startsWith (String d s) sub = false →
  includes (String d s) sub = includes s sub.
Proof. intros Hs. rewrite includes_cons, Hs. reflexivity. Qed.

(** A string that does not contain "status" does not contain "/status",
    also after the prefix of the listing route. *)
Lemma data_path_without_status (deviceId : string) :
  includes deviceId "status" = false →
  includes ("/api/device/data/" +:+ deviceId) "/status" = false.
Proof.
  intros Hno. apply not_true_is_false. intros Hyes.
  apply not_true_iff_false in Hno. apply Hno. clear Hno.
  rewrite !append_cons, append_nil in Hyes.
  do 16 (rewrite includes_cons_false in Hyes by reflexivity).
  rewrite includes_cons in Hyes.
  rewrite startsWith_cons in Hyes.
  apply orb_true_iff in Hyes as [Hhere|Hlater].
  - apply includes_spec. apply startsWith_spec in Hhere as [rest ->].
    exists "", rest. reflexivity.
  - apply includes_spec in Hlater as (pre & post & ->).
    apply includes_spec. exists (pre +:+ "/"), post.
    rewrite append_assoc. reflexivity.
Qed.

Lemma apiKeyMiddleware_status (API_KEY path : string) (apiKey : option string) :
  includes path "/status" = true → apiKeyMiddleware API_KEY path apiKey = None.
Proof.
  intros Hin. unfold apiKeyMiddleware. rewrite Hin, andb_false_r. reflexivity.
Qed.

(** C3. The key check is skipped for every path in which "/status"
    occurs anywhere.  Hence the listing of a device whose identifier
    begins with "status" is answered by the listing handler whatever the
    [x-api-key] header, also when it is absent; the listing of a device
    whose identifier does not contain "status" is answered
    401 Unauthorized as soon as the header is not the configured key. *)
Theorem status_substring_skips_key_check (API_KEY : string) :
  (∀ pre post apiKey,
     apiKeyMiddleware API_KEY (pre +:+ "/status" +:+ post) apiKey = None)
  ∧ (∀ rest apiKey clock find st,
       getDeviceData API_KEY apiKey clock find st ("status" +:+ rest)
       = listHandler clock find st ("status" +:+ rest))
  ∧ (∀ deviceId apiKey clock find st,
       includes deviceId "status" = false →
       apiKey ≠ Some API_KEY →
       getDeviceData API_KEY apiKey clock find st deviceId = unauthorized).
Proof.
  split; [|split].
  - intros pre post apiKey. apply apiKeyMiddleware_status.
    apply includes_spec. exists pre, post. reflexivity.
  - intros rest apiKey clock find st. unfold getDeviceData.
    rewrite apiKeyMiddleware_status; [reflexivity|].
    apply includes_spec. exists "/api/device/data", rest. reflexivity.
  - intros deviceId apiKey clock find st Hno Hkey. unfold getDeviceData.
    unfold apiKeyMiddleware.
    rewrite (data_path_without_status deviceId Hno).
    replace (startsWith ("/api/device/data/" +:+ deviceId) "/api") with true
      by reflexivity.
    simpl. rewrite bool_decide_eq_true_2 by exact Hkey. reflexivity.
Qed.

Lemma example_listing_key_check :
  getDeviceData "secret" None (constClock 10) findNothing d1State "status-7"
  = deviceNotActive
  ∧ getDeviceData "secret" None (constClock 10) findNothing d1State "d1"
    = unauthorized
  ∧ getDeviceData "secret" (Some "secret") (constClock 10) findNothing d1State "d1"
    = noData.
Proof. vm_compute. repeat split. Qed.

(** ** The scenario of the specification *)

(** Trigger "d1" at 0; the status shows it active; a submission in
    range is stored; one out of range is refused; the listing, with the
    key, gets past the guard; after the window a submission is refused. *)
Example example_scenario :
  let st1 := (triggerHandler (constClock 0) emptyState (VString "d1")).2 in
  let submit := dataHandler noStringToNumber noObjectToNumber in
  let r2 := submit (constClock 5) saveAlways st1
              (mkDataBody (VString "d1") (num 10) (num 20)) in
  let r3 := submit (constClock 6) saveAlways r2.2
              (mkDataBody (VString "d1") (num 999) (num 20)) in
  let r5 := submit (constClock 30000001) saveAlways r3.2
              (mkDataBody (VString "d1") (num 10) (num 20)) in
  getField "triggered" (body (statusHandler (constClock 1) st1 "d1")) = Some (JBool true)
  ∧ getField "expiresIn" (body (statusHandler (constClock 1) st1 "d1"))
    = Some (JNum 29999999)
  ∧ status r2.1 = 201
  ∧ length (store r2.2) = 1%nat
  ∧ r3.1 = invalidCoordinates
  ∧ r3.2 = r2.2
  ∧ getDeviceData "secret" (Some "secret") (constClock 7) findNothing r3.2 "d1" = noData
  ∧ r5.1 = deviceNotActive.
Proof. vm_compute. repeat split. Qed.

(** * Further properties of the server *)

(** ** Startup *)

Lemma validateEnv_None (env : gmap string string) (vars : list string) :
  validateEnv env vars = None ↔ Forall (λ v, envMissing env v = false) vars.
Proof.
  induction vars as [|v vars IH]; simpl.
  - split; [constructor|reflexivity].
  - destruct (envMissing env v) eqn:Hv.
    + split; [discriminate|]. intros Hall. inversion Hall; congruence.
    + rewrite IH. split.
      * intros Hall. constructor; assumption.
      * intros Hall. inversion Hall; assumption.
Qed.

Lemma validateEnv_Some (env : gmap string string) (vars : list string) (v : string) :
  validateEnv env vars = Some v →
  ∃ before after, vars = before ++ v :: after
                  ∧ Forall (λ w, envMissing env w = false) before
                  ∧ envMissing env v = true.
Proof.
  induction vars as [|w vars IH]; simpl; [discriminate|].
  destruct (envMissing env w) eqn:Hw.
  - intros [= <-]. exists [], vars. repeat split; [constructor|exact Hw].
  - intros Hv. destruct (IH Hv) as (before & after & -> & Hbefore & Hmiss).
    exists (w :: before), after. repeat split; [constructor; assumption|exact Hmiss].
Qed.

Lemma envMissing_false (env : gmap string string) (v : string) :
  envMissing env v = false ↔ ∃ x, env !! v = Some x ∧ x ≠ "".
Proof.
  unfold envMissing. destruct (env !! v) as [x|].
  - rewrite bool_decide_eq_false. split.
    + intros Hx. exists x. split; [reflexivity|exact Hx].
    + intros (y & [= <-] & Hy). exact Hy.
  - split; [discriminate|]. intros (x & Hx & _). discriminate.
Qed.

(** X1. The startup validation lets the process continue exactly when
    MONGODB_URI, PORT and API_KEY are all set to non-empty strings;
    otherwise it reports the first of them, in that order, that is unset
    or empty.  Once it has passed, [PORT] is the string of the
    environment: the fallback 5000 is never used. *)
Theorem validateEnv_required (env : gmap string string) :
  (validateEnv env requiredEnvVars = None
   ↔ (∃ uri, env !! "MONGODB_URI" = Some uri ∧ uri ≠ "")
     ∧ (∃ port, env !! "PORT" = Some port ∧ port ≠ "")
     ∧ (∃ key, env !! "API_KEY" = Some key ∧ key ≠ ""))
  ∧ (∀ v, validateEnv env requiredEnvVars = Some v →
       envMissing env v = true
       ∧ ∃ before after, requiredEnvVars = before ++ v :: after
                         ∧ Forall (λ w, envMissing env w = false) before)
  ∧ (validateEnv env requiredEnvVars = None →
       ∃ port, PORT env = inl port ∧ env !! "PORT" = Some port).
Proof.
  assert (Hnone : validateEnv env requiredEnvVars = None
                  ↔ (∃ uri, env !! "MONGODB_URI" = Some uri ∧ uri ≠ "")
                    ∧ (∃ port, env !! "PORT" = Some port ∧ port ≠ "")
                    ∧ (∃ key, env !! "API_KEY" = Some key ∧ key ≠ "")).
  { rewrite validateEnv_None. unfold requiredEnvVars.
    rewrite !Forall_cons, Forall_nil, !envMissing_false. tauto. }
  split; [exact Hnone|split].
  - intros v Hv. destruct (validateEnv_Some _ _ _ Hv) as (b & a & Heq & Hb & Hm).
    split; [exact Hm|]. exists b, a. split; assumption.
  - intros Hok. apply Hnone in Hok as (_ & (port & Hport & Hne) & _).
    exists port. split; [|exact Hport].
    unfold PORT. rewrite Hport. rewrite bool_decide_eq_false_2 by exact Hne.
    reflexivity.
Qed.

(** The calls of [mongoose.connect] made by [connectDB], started after
    [calls] earlier calls: all but the last fail, one [interval] is
    waited after each failure but the last, and the last call either
    succeeds or is call number [calls + retries]. *)
Lemma connectDB_calls (connect : nat → bool) (interval : Z) (retries calls : nat) :
  let r := connectDB connect calls retries interval in
  (calls < r.1.2 ≤ calls + retries + 1)%nat
  ∧ r.2 = interval * Z.of_nat (r.1.2 - calls - 1)
  ∧ (∀ k, (calls ≤ k < r.1.2 - 1)%nat → connect k = false)
  ∧ match r.1.1 with
    | Connected => connect (r.1.2 - 1)%nat = true
    | Exit1 => r.1.2 = (calls + retries + 1)%nat ∧ connect (r.1.2 - 1)%nat = false
    end.
Proof.
  revert calls. induction retries as [|retries IH]; intros calls; simpl.
  - destruct (connect calls) eqn:Hc; simpl.
    + replace (calls - calls - 0)%nat with 0%nat by lia.
      replace (calls - 0)%nat with calls by lia.
      repeat split; try lia. exact Hc.
    + replace (calls - calls - 0)%nat with 0%nat by lia.
      replace (calls - 0)%nat with calls by lia.
      repeat split; try lia. exact Hc.
  - destruct (connect calls) eqn:Hc; simpl.
    + replace (calls - calls - 0)%nat with 0%nat by lia.
      replace (calls - 0)%nat with calls by lia.
      repeat split; try lia. exact Hc.
    + specialize (IH (S calls)). simpl in IH.
      destruct (connectDB connect (S calls) retries interval) as [[boot made] waited].
      simpl in *. destruct IH as (Hmade & Hwait & Hfail & Hlast).
      split; [lia|]. split; [|split].
      * rewrite Hwait. replace (made - calls - 1)%nat with (S (made - S calls - 1)) by lia.
        lia.
      * intros k Hk. destruct (decide (k = calls)) as [->|Hne]; [exact Hc|].
        apply Hfail. lia.
      * destruct boot; [exact Hlast|]. destruct Hlast as [Hm Hl].
        split; [lia|exact Hl].
Qed.

(** X2. [connectDB(retries, interval)] calls [mongoose.connect] at most
    [retries + 1] times and stops at the first call that succeeds; it
    waits [interval] after each failed call but the last.  It connects
    exactly when one of the first [retries + 1] calls succeeds, and
    otherwise exits the process after [retries + 1] calls and
    [retries * interval] milliseconds of waiting.  With the default
    arguments that is at most 6 calls and 25000 ms. *)
Theorem connectDB_bounded_retries (connect : nat → bool) (retries : nat) (interval : Z) :
  let r := connectDB connect 0 retries interval in
  (r.1.1 = Connected ↔ ∃ k, (k ≤ retries)%nat ∧ connect k = true)
  ∧ (r.1.1 = Connected →
       connect (r.1.2 - 1)%nat = true ∧ ∀ k, (k < r.1.2 - 1)%nat → connect k = false)
  ∧ (r.1.1 = Exit1 →
       r.1.2 = (retries + 1)%nat ∧ r.2 = interval * Z.of_nat retries)
  ∧ (1 ≤ r.1.2 ≤ retries + 1)%nat
  ∧ r.2 = interval * Z.of_nat (r.1.2 - 1)
  ∧ ((connectDB_default connect).1.2 ≤ 6)%nat
  ∧ 0 ≤ (connectDB_default connect).2 ≤ 25000.
Proof.
  intros r.
  pose proof (connectDB_calls connect interval retries 0) as H. fold r in H.
  simpl in H. destruct H as (Hmade & Hwait & Hfail & Hlast).
  pose proof (connectDB_calls connect 5000 5 0) as Hd.
  fold (connectDB_default connect) in Hd. simpl in Hd.
  destruct Hd as (Hdmade & Hdwait & _ & _).
  replace (r.1.2 - 0 - 1)%nat with (r.1.2 - 1)%nat in Hwait by lia.
  split; [|split; [|split; [|split; [|split; [|split]]]]].
  - split.
    + intros Hc. rewrite Hc in Hlast. exists (r.1.2 - 1)%nat. split; [lia|exact Hlast].
    + intros (k & Hk & Hconn). destruct (r.1.1); [reflexivity|].
      destruct Hlast as [Hm Hl].
      destruct (decide (k = r.1.2 - 1)%nat) as [->|Hne]; [congruence|].
      rewrite Hfail in Hconn by lia. discriminate.
  - intros Hc. rewrite Hc in Hlast. split; [exact Hlast|].
    intros k Hk. apply Hfail. lia.
  - intros He. rewrite He in Hlast. destruct Hlast as [Hm _].
    split; [lia|]. rewrite Hwait. f_equal. lia.
  - lia.
  - exact Hwait.
  - lia.
  - rewrite Hdwait. lia.
Qed.

Lemma connectDB_default_example :
  connectDB_default (λ k, bool_decide (k = 2%nat)) = (Connected, 3%nat, 10000)
  ∧ connectDB_default (λ _, false) = (Exit1, 6%nat, 25000).
Proof. vm_compute. split; reflexivity. Qed.

(** ** The middleware and the routes *)

(** X3. The middleware ends a request with 401 exactly when its path
    begins with "/api", "/status" occurs nowhere in it, and the
    [x-api-key] header is absent or differs from the configured key; in
    every other case it hands the request on. *)
Theorem apiKeyMiddleware_rejects_iff (API_KEY path : string) (apiKey : option string) :
  (apiKeyMiddleware API_KEY path apiKey = Some unauthorized
   ↔ (∃ rest, path = "/api" +:+ rest)
     ∧ ¬ (∃ pre post, path = pre +:+ "/status" +:+ post)
     ∧ apiKey ≠ Some API_KEY)
  ∧ (apiKeyMiddleware API_KEY path apiKey ≠ Some unauthorized →
     apiKeyMiddleware API_KEY path apiKey = None).
Proof.
  rewrite <- startsWith_spec, <- includes_spec. unfold apiKeyMiddleware.
  destruct (startsWith path "/api"); simpl.
  - destruct (includes path "/status"); simpl.
    + split; [|reflexivity]. split; [discriminate|]. intros (_ & Hn & _). congruence.
    + destruct (decide (apiKey ≠ Some API_KEY)) as [Hk|Hk].
      * rewrite bool_decide_eq_true_2 by exact Hk.
        split; [|congruence]. split; [|reflexivity].
        intros _. repeat split; [discriminate|exact Hk].
      * rewrite bool_decide_eq_false_2 by exact Hk.
        split; [|reflexivity]. split; [discriminate|]. intros (_ & _ & Hn). contradiction.
  - split; [|reflexivity]. split; [discriminate|]. intros (Hn & _). discriminate.
Qed.



(** ** The data submission handler, continued *)

Lemma absExceeds_finite S2N O2N (q : Qc) (bound : Z) :
  absExceeds S2N O2N (VNumber (Finite q)) bound = false
  ↔ (- Q2Qc (inject_Z bound) ≤ q ∧ q ≤ Q2Qc (inject_Z bound))%Qc.
Proof.
  unfold absExceeds. simpl. rewrite bool_decide_eq_false.
  rewrite <- Qcabs_Qcle_condition. split.
  - apply Qcnot_lt_le.
  - apply Qcle_not_lt.
Qed.

(** X5. For a submission with a truthy [deviceId] and finite numeric
    coordinates, the answer is 400 INVALID_COORDINATES exactly when the
    latitude lies outside [-90, 90] or the longitude outside
    [-180, 180]; the bounds themselves are accepted. *)
Theorem coordinates_rejected_iff_out_of_range S2N O2N (clock : nat → Z)
    (save : Coordinate → SaveResult) (st : ServerState) (deviceId : JsValue)
    (lat lon : Qc) :
  truthy deviceId = true →
  (dataHandler S2N O2N clock save st
     (mkDataBody deviceId (VNumber (Finite lat)) (VNumber (Finite lon)))).1
  = invalidCoordinates
  ↔ ¬ (- Q2Qc (inject_Z 90) ≤ lat ∧ lat ≤ Q2Qc (inject_Z 90))%Qc
    ∨ ¬ (- Q2Qc (inject_Z 180) ≤ lon ∧ lon ≤ Q2Qc (inject_Z 180))%Qc.
Proof.
  intros Hid.
  rewrite dataHandler_fields_present by (simpl; done).
  simpl body_latitude. simpl body_longitude. simpl body_deviceId.
  rewrite <- !(absExceeds_finite S2N O2N).
  destruct (absExceeds S2N O2N (VNumber (Finite lat)) 90) eqn:Hlat.
  - rewrite orb_true_l. split; [|reflexivity]. intros _. left. discriminate.
  - rewrite orb_false_l.
    destruct (absExceeds S2N O2N (VNumber (Finite lon)) 180) eqn:Hlon.
    + split; [|reflexivity]. intros _. right. discriminate.
    + split; [|intros [Hn|Hn]; exfalso; apply Hn; reflexivity].
      destruct (deviceStates st !! deviceId) as [s|]; [|discriminate].
      destruct (notTriggeredOrExpired (Some s) (clock 0%nat)); [discriminate|].
      cbv zeta. destruct (save _); discriminate.
Qed.

Lemma coordinates_rejected_iff_out_of_range_witness :
  (dataHandler noStringToNumber noObjectToNumber (constClock 10) saveAlways d1State
     (mkDataBody (VString "d1") (VNumber (Finite (Q2Qc (inject_Z 90))))
        (VNumber (Finite (Q2Qc (inject_Z (-180))))))).1
  = invalidCoordinates
  ↔ ¬ (- Q2Qc (inject_Z 90) ≤ Q2Qc (inject_Z 90)
       ∧ Q2Qc (inject_Z 90) ≤ Q2Qc (inject_Z 90))%Qc
    ∨ ¬ (- Q2Qc (inject_Z 180) ≤ Q2Qc (inject_Z (-180))
         ∧ Q2Qc (inject_Z (-180)) ≤ Q2Qc (inject_Z 180))%Qc.
Proof.
  apply (coordinates_rejected_iff_out_of_range noStringToNumber noObjectToNumber
           (constClock 10) saveAlways d1State (VString "d1")
           (Q2Qc (inject_Z 90)) (Q2Qc (inject_Z (-180)))).
  reflexivity.
Defined.

Lemma example_bounds_accepted :
  status (dataHandler noStringToNumber noObjectToNumber (constClock 10) saveAlways d1State
            (mkDataBody (VString "d1") (VNumber (Finite (Q2Qc (inject_Z 90))))
               (VNumber (Finite (Q2Qc (inject_Z (-180))))))).1 = 201
  ∧ (dataHandler noStringToNumber noObjectToNumber (constClock 10) saveAlways d1State
       (mkDataBody (VString "d1") (VNumber (Finite (Q2Qc (181 # 2)))) (num 0))).1
    = invalidCoordinates.
Proof. vm_compute. split; reflexivity. Qed.

(** X6. The data handler answers 400, 403, 201 or 500.  A submission
    answered 400 or 403 leaves the table and the store as they were; the
    store changes only with a 201 answer, and then by exactly one
    document appended after the existing ones; no entry of the table is
    ever created or removed by a submission. *)
Theorem submission_effects S2N O2N (clock : nat → Z)
    (save : Coordinate → SaveResult) (st : ServerState) (req : DataBody) :
  let r := dataHandler S2N O2N clock save st req in
  (status r.1 = 400 ∨ status r.1 = 403 ∨ status r.1 = 201 ∨ status r.1 = 500)
  ∧ (status r.1 = 400 ∨ status r.1 = 403 → r.2 = st)
  ∧ (status r.1 ≠ 201 → store r.2 = store st)
  ∧ (status r.1 = 201 → ∃ savedCoordinate, store r.2 = store st ++ [savedCoordinate])
  ∧ dom (deviceStates r.2) = dom (deviceStates st).
Proof.
  intros r.
  assert (Hdom : dom (deviceStates r.2) = dom (deviceStates st)).
  { apply set_eq. intros k. rewrite !elem_of_dom.
    rewrite <- !(fmap_is_Some window). subst r.
    rewrite dataHandler_window. reflexivity. }
  split; [|split; [|split; [|split; [|exact Hdom]]]]; clear Hdom; subst r;
    unfold dataHandler;
    (destruct (negb (truthy (body_deviceId req)) || isUndefined (body_latitude req)
               || isUndefined (body_longitude req));
     [|destruct (absExceeds _ _ _ 90 || absExceeds _ _ _ 180);
       [|destruct (notTriggeredOrExpired _ _);
         [|destruct (deviceStates st !! body_deviceId req) as [s|];
           [destruct (save _) as [doc|msg]|]]]]);
    simpl;
    solve [ intros; first [reflexivity | lia | (eexists; reflexivity)] ].
Qed.

(** ** Runs: windows, isolation, append-only store, shape of the table *)

(** X7. After an activation at [t0 = ct 0] and any run without a new
    activation of the device, a well-formed submission for the device
    whose coordinates are in range is answered 403 DEVICE_NOT_ACTIVE
    exactly when the handler reads the clock after [t0 + 30000000]; at
    the instant [t0 + 30000000] itself it is still accepted. *)
Theorem submission_refused_iff_past_window S2N O2N (st : ServerState)
    (deviceId : string) (ct : nat → Z) (evs : list Event) (clock : nat → Z)
    (save : Coordinate → SaveResult) (latitude longitude : JsValue) :
  deviceId ≠ "" →
  Forall (keepsWindow deviceId (clock 0%nat)) evs →
  latitude ≠ VUndefined →
  longitude ≠ VUndefined →
  absExceeds S2N O2N latitude 90 = false →
  absExceeds S2N O2N longitude 180 = false →
  let st' := run S2N O2N (triggerHandler ct st (VString deviceId)).2 evs in
  (dataHandler S2N O2N clock save st'
     (mkDataBody (VString deviceId) latitude longitude)).1 = deviceNotActive
  ↔ ct 0%nat + 30000000 < clock 0%nat.
Proof.
  intros Hid Hevs Hlat Hlon Hla Hlo st'.
  assert (Hinv : window <$> deviceStates st' !! VString deviceId
                   = Some (true, ct 0%nat + 30000000)
                 ∨ (deviceStates st' !! VString deviceId = None
                    ∧ ct 0%nat + 30000000 < clock 0%nat)).
  { apply run_keeps_window; [exact Hevs|]. left.
    rewrite triggerHandler_entry by (apply truthy_VString; exact Hid).
    reflexivity. }
  rewrite dataHandler_fields_present
    by (simpl; first [apply truthy_VString; exact Hid | assumption]).
  simpl body_latitude. simpl body_longitude. simpl body_deviceId.
  rewrite Hla, Hlo. simpl orb. cbv iota.
  destruct Hinv as [Hin|[Hout Hlt]].
  - destruct (deviceStates st' !! VString deviceId) as [s|]; [|discriminate].
    injection Hin as Htr Hex.
    unfold notTriggeredOrExpired. rewrite Htr, Hex. simpl negb. rewrite orb_false_l.
    destruct (decide (ct 0%nat + 30000000 < clock 0%nat)) as [Hpast|Hin].
    + rewrite bool_decide_eq_true_2 by exact Hpast. split; [intros _; exact Hpast|reflexivity].
    + rewrite bool_decide_eq_false_2 by exact Hin. cbv zeta.
      split; [|intros; contradiction].
      destruct (save _); discriminate.
  - rewrite Hout. split; [intros _; exact Hlt|reflexivity].
Qed.

Lemma submission_refused_iff_past_window_witness :
  (dataHandler noStringToNumber noObjectToNumber (constClock 30000000) saveAlways
     (run noStringToNumber noObjectToNumber
        (triggerHandler (constClock 0) emptyState (VString "d1")).2
        [Cleanup 29000000])
     (mkDataBody (VString "d1") (num 10) (num 20))).1 = deviceNotActive
  ↔ constClock 0 0%nat + 30000000 < constClock 30000000 0%nat.
Proof.
  apply (submission_refused_iff_past_window noStringToNumber noObjectToNumber
           emptyState "d1" (constClock 0) [Cleanup 29000000]
           (constClock 30000000) saveAlways (num 10) (num 20)).
  - discriminate.
  - apply Forall_cons_2; [|apply Forall_nil_2].
    unfold keepsWindow, constClock. lia.
  - discriminate.
  - discriminate.
  - vm_compute. reflexivity.
  - vm_compute. reflexivity.
Defined.

Lemma dataHandler_other S2N O2N (clock : nat → Z) (save : Coordinate → SaveResult)
    (st : ServerState) (req : DataBody) (k : JsValue) :
  body_deviceId req ≠ k →
  deviceStates (dataHandler S2N O2N clock save st req).2 !! k = deviceStates st !! k.
Proof.
  intros Hne. unfold dataHandler.
  destruct (negb (truthy (body_deviceId req)) || isUndefined (body_latitude req)
            || isUndefined (body_longitude req)); [reflexivity|].
  destruct (absExceeds _ _ _ 90 || absExceeds _ _ _ 180); [reflexivity|].
  destruct (notTriggeredOrExpired _ _); [reflexivity|].
  destruct (deviceStates st !! body_deviceId req) as [s|]; [|reflexivity].
  destruct (save _); simpl; apply lookup_insert_ne; exact Hne.
Qed.

(** X8. Requests for other keys do not touch a device: along a run made
    only of trigger and data requests whose [deviceId] is not [k], the
    entry of [k] (or its absence) stays exactly as it was. *)
Theorem other_devices_untouched S2N O2N (k : JsValue) (evs : list Event)
    (st : ServerState) :
  Forall (leavesAlone k) evs →
  deviceStates (run S2N O2N st evs) !! k = deviceStates st !! k.
Proof.
  intros Hevs. revert st.
  induction Hevs as [|ev evs Hev _ IH]; intros st; [reflexivity|].
  simpl. rewrite IH.
  destruct ev as [clock deviceId|clock save req|T]; simpl in *.
  - apply triggerHandler_other. congruence.
  - apply dataHandler_other. exact Hev.
  - contradiction.
Qed.

Lemma other_devices_untouched_witness :
  deviceStates
    (run noStringToNumber noObjectToNumber d1State
       [TriggerRequest (constClock 5) (VString "d2");
        DataRequest (constClock 6) saveAlways
          (mkDataBody (VString "d2") (num 1) (num 2))])
    !! VString "d1"
  = deviceStates d1State !! VString "d1".
Proof.
  apply (other_devices_untouched noStringToNumber noObjectToNumber (VString "d1")
           [TriggerRequest (constClock 5) (VString "d2");
            DataRequest (constClock 6) saveAlways
              (mkDataBody (VString "d2") (num 1) (num 2))]
           d1State).
  apply Forall_cons_2; [discriminate|].
  apply Forall_cons_2; [discriminate|apply Forall_nil_2].
Defined.

Lemma step_store S2N O2N (st : ServerState) (ev : Event) :
  ∃ added, store (step S2N O2N st ev) = store st ++ added
           ∧ (length added ≤ submissions [ev])%nat.
Proof.
  destruct ev as [clock deviceId|clock save req|T]; simpl.
  - exists []. rewrite app_nil_r. split; [|simpl; lia].
    unfold triggerHandler. destruct (negb (truthy deviceId)); reflexivity.
  - unfold dataHandler.
    destruct (negb (truthy (body_deviceId req)) || isUndefined (body_latitude req)
              || isUndefined (body_longitude req));
      [exists []; rewrite app_nil_r; split; [reflexivity|simpl; lia]|].
    destruct (absExceeds _ _ _ 90 || absExceeds _ _ _ 180);
      [exists []; rewrite app_nil_r; split; [reflexivity|simpl; lia]|].
    destruct (notTriggeredOrExpired _ _);
      [exists []; rewrite app_nil_r; split; [reflexivity|simpl; lia]|].
    destruct (deviceStates st !! body_deviceId req) as [s|];
      [|exists []; rewrite app_nil_r; split; [reflexivity|simpl; lia]].
    destruct (save _) as [doc|msg]; simpl.
    + exists [doc]. split; [reflexivity|simpl; lia].
    + exists []. rewrite app_nil_r. split; [reflexivity|simpl; lia].
  - exists []. rewrite app_nil_r. split; [reflexivity|simpl; lia].
Qed.

Lemma submissions_cons (ev : Event) (evs : list Event) :
  submissions (ev :: evs) = (submissions [ev] + submissions evs)%nat.
Proof. destruct ev; reflexivity. Qed.

(** X9. The store is append-only: after any run of trigger requests,
    data submissions and cleanups, the documents that were in the store
    are still there, unchanged and in the same order, followed by the
    documents added; at most one document is added per data submission
    of the run. *)
Theorem store_append_only S2N O2N (evs : list Event) (st : ServerState) :
  ∃ added, store (run S2N O2N st evs) = store st ++ added
           ∧ (length added ≤ submissions evs)%nat.
Proof.
  revert st. induction evs as [|ev evs IH]; intros st.
  - exists []. rewrite app_nil_r. split; [reflexivity|simpl; lia].
  - destruct (step_store S2N O2N st ev) as (a1 & Hs1 & Hl1).
    destruct (IH (step S2N O2N st ev)) as (a2 & Hs2 & Hl2).
    exists (a1 ++ a2). split.
    + change (run S2N O2N st (ev :: evs)) with (run S2N O2N (step S2N O2N st ev) evs).
      rewrite Hs2, Hs1, app_assoc. reflexivity.
    + rewrite submissions_cons, length_app. lia.
Qed.

(** Every key of the table is truthy and every entry has
    [triggered = true]: an invariant of the three state-changing
    operations. *)
Lemma step_keeps_shape S2N O2N (st : ServerState) (ev : Event) :
  (∀ k s, deviceStates st !! k = Some s → truthy k = true ∧ triggered s = true) →
  ∀ k s, deviceStates (step S2N O2N st ev) !! k = Some s →
         truthy k = true ∧ triggered s = true.
Proof.
  intros Hst k s. destruct ev as [clock deviceId|clock save req|T]; simpl.
  - unfold triggerHandler. destruct (truthy deviceId) eqn:Hid; simpl; [|apply Hst].
    destruct (decide (k = deviceId)) as [->|Hne].
    + rewrite lookup_insert_eq. intros [= <-]. split; [exact Hid|reflexivity].
    + rewrite lookup_insert_ne by congruence. apply Hst.
  - intros Hk.
    pose proof (dataHandler_window S2N O2N clock save st req k) as Hw.
    rewrite Hk in Hw. simpl in Hw.
    destruct (deviceStates st !! k) as [s0|] eqn:Hs0; [|discriminate].
    injection Hw as Htr _. destruct (Hst k s0 Hs0) as [Hk0 Htr0].
    split; [exact Hk0|congruence].
  - rewrite sweep_lookup.
    destruct (deviceStates st !! k) as [s0|] eqn:Hs0; [|discriminate].
    destruct (bool_decide (expires s0 < T)); [discriminate|].
    intros [= <-]. apply (Hst k s0 Hs0).
Qed.

(** X10. In every state the process reaches from the empty table, each
    key of [deviceStates] is a truthy value and each entry has
    [triggered = true]: no handler ever stores [triggered = false] or an
    entry under an empty, null, zero or false [deviceId]. *)
Theorem reachable_entries_triggered S2N O2N (evs : list Event)
    (k : JsValue) (s : DeviceState) :
  deviceStates (run S2N O2N emptyState evs) !! k = Some s →
  truthy k = true ∧ triggered s = true.
Proof.
  assert (Hgen : ∀ st,
    (∀ k s, deviceStates st !! k = Some s → truthy k = true ∧ triggered s = true) →
    ∀ k s, deviceStates (run S2N O2N st evs) !! k = Some s →
           truthy k = true ∧ triggered s = true).
  { induction evs as [|ev evs IH]; intros st Hst; [exact Hst|].
    simpl. apply IH. apply step_keeps_shape. exact Hst. }
  apply Hgen. intros k' s' Hk'. simpl in Hk'. rewrite lookup_empty in Hk'. discriminate.
Qed.

Lemma reachable_entries_triggered_witness :
  truthy (VString "d1") = true ∧ triggered (mkDeviceState true 30000000 1) = true.
Proof.
  apply (reachable_entries_triggered noStringToNumber noObjectToNumber
           [TriggerRequest (constClock 0) (num 0);
            TriggerRequest (λ i, Z.of_nat i) (VString "d1");
            Cleanup 10]
           (VString "d1") (mkDeviceState true 30000000 1)).
  vm_compute. reflexivity.
Defined.

(** ** The cleanup never changes an answer *)

Lemma sweep_guard (T now : Z) (m : gmap JsValue DeviceState) (k : JsValue) :
  T ≤ now →
  notTriggeredOrExpired ((sweep T m).1 !! k) now = notTriggeredOrExpired (m !! k) now
  ∧ (notTriggeredOrExpired (m !! k) now = false → (sweep T m).1 !! k = m !! k).
Proof.
  intros HT. rewrite sweep_lookup.
  destruct (m !! k) as [s|]; [|split; reflexivity].
  destruct (decide (expires s < T)) as [Hlt|Hge].
  - rewrite bool_decide_eq_true_2 by exact Hlt. simpl.
    rewrite (bool_decide_eq_true_2 (expires s < now)) by lia.
    rewrite orb_true_r. split; [reflexivity|discriminate].
  - rewrite bool_decide_eq_false_2 by exact Hge. split; reflexivity.
Qed.

(** X11. A cleanup that ran no later than the instant at which a handler
    reads the clock changes none of its answers: the response of the
    data handler, the response of the listing handler and the
    [triggered] flag of the status response are the same on the table
    before and after the cleanup. *)
Theorem cleanup_changes_no_answer S2N O2N (T : Z) (clock : nat → Z) (st : ServerState) :
  T ≤ clock 0%nat →
  (∀ save req,
     (dataHandler S2N O2N clock save (cleanup T st) req).1
     = (dataHandler S2N O2N clock save st req).1)
  ∧ (∀ find deviceId,
       listHandler clock find (cleanup T st) deviceId
       = listHandler clock find st deviceId)
  ∧ (∀ deviceId,
       getField "triggered" (body (statusHandler clock (cleanup T st) deviceId))
       = getField "triggered" (body (statusHandler clock st deviceId))).
Proof.
  intros HT. split; [|split].
  - intros save req. unfold dataHandler, cleanup. simpl deviceStates.
    destruct (negb (truthy (body_deviceId req)) || isUndefined (body_latitude req)
              || isUndefined (body_longitude req)); [reflexivity|].
    destruct (absExceeds _ _ _ 90 || absExceeds _ _ _ 180); [reflexivity|].
    destruct (sweep_guard T (clock 0%nat) (deviceStates st) (body_deviceId req) HT)
      as [Hg Hsame].
    rewrite Hg.
    destruct (notTriggeredOrExpired (deviceStates st !! body_deviceId req) (clock 0%nat));
      [reflexivity|].
    rewrite (Hsame eq_refl).
    destruct (deviceStates st !! body_deviceId req) as [s|]; [|reflexivity].
    destruct (save _); reflexivity.
  - intros find deviceId. unfold listHandler, cleanup. simpl deviceStates.
    destruct (sweep_guard T (clock 0%nat) (deviceStates st) (VString deviceId) HT)
      as [Hg Hsame].
    rewrite Hg.
    destruct (notTriggeredOrExpired (deviceStates st !! VString deviceId) (clock 0%nat));
      [reflexivity|].
    rewrite (Hsame eq_refl). reflexivity.
  - intros deviceId. rewrite !status_triggered_field. unfold cleanup. simpl deviceStates.
    rewrite sweep_lookup.
    destruct (deviceStates st !! VString deviceId) as [s|]; [|reflexivity].
    destruct (decide (expires s < T)) as [Hlt|Hge].
    + rewrite bool_decide_eq_true_2 by exact Hlt.
      unfold isActive. rewrite (bool_decide_eq_false_2 (expires s > clock 0%nat)) by lia.
      rewrite andb_false_r. reflexivity.
    + rewrite bool_decide_eq_false_2 by exact Hge. reflexivity.
Qed.

Lemma cleanup_changes_no_answer_witness :
  listHandler (constClock 2000) findNothing (cleanup 1500 d1State) "d1"
  = listHandler (constClock 2000) findNothing d1State "d1".
Proof.
  apply (cleanup_changes_no_answer noStringToNumber noObjectToNumber 1500
           (constClock 2000) d1State).
  unfold constClock. lia.
Defined.

Lemma sweep_table (T : Z) (m : gmap JsValue DeviceState) :
  (sweep T m).1 = filter (λ kv, ¬ expiredBefore T kv) m.
Proof.
  apply map_eq. intros k. rewrite sweep_lookup.
  destruct (m !! k) as [s|] eqn:Hk.
  - destruct (decide (expires s < T)) as [Hlt|Hge].
    + rewrite bool_decide_eq_true_2 by done. symmetry.
      apply map_lookup_filter_None. right. intros s' Hs' Hn.
      rewrite Hk in Hs'. injection Hs' as <-. apply Hn. exact Hlt.
    + rewrite bool_decide_eq_false_2 by done. symmetry.
      apply map_lookup_filter_Some. split; [exact Hk|exact Hge].
  - symmetry. apply map_lookup_filter_None. left. exact Hk.
Qed.

Lemma sweep_size (T : Z) (m : gmap JsValue DeviceState) :
  (size (sweep T m).1 + (sweep T m).2 = size m)%nat.
Proof.
  rewrite sweep_count, sweep_table.
  rewrite <- (map_filter_union_complement (expiredBefore T) m) at 3.
  rewrite map_size_disj_union by apply map_disjoint_filter_complement.
  lia.
Qed.

(** X12. Two cleanups in a row, the first at [T1] and the second at a
    later [T2], leave the table that one cleanup at [T2] leaves, and
    their counts add up to its count; in particular a cleanup repeated
    at the same instant deletes nothing more and counts 0. *)
Theorem cleanups_compose (T1 T2 : Z) (m : gmap JsValue DeviceState) :
  T1 ≤ T2 →
  (sweep T2 (sweep T1 m).1).1 = (sweep T2 m).1
  ∧ ((sweep T1 m).2 + (sweep T2 (sweep T1 m).1).2 = (sweep T2 m).2)%nat
  ∧ sweep T1 (sweep T1 m).1 = ((sweep T1 m).1, 0%nat).
Proof.
  intros HT.
  assert (Htable : ∀ A B, A ≤ B → (sweep B (sweep A m).1).1 = (sweep B m).1).
  { intros A B HAB. apply map_eq. intros k. rewrite !sweep_lookup.
    destruct (m !! k) as [s|]; [|reflexivity].
    destruct (decide (expires s < A)) as [Hlt|Hge].
    - rewrite (bool_decide_eq_true_2 (expires s < A)) by exact Hlt.
      rewrite (bool_decide_eq_true_2 (expires s < B)) by lia. reflexivity.
    - rewrite (bool_decide_eq_false_2 (expires s < A)) by exact Hge. reflexivity. }
  assert (Hidem : (sweep T1 (sweep T1 m).1).1 = (sweep T1 m).1).
  { rewrite Htable by lia. reflexivity. }
  split; [apply Htable; exact HT|split].
  - pose proof (sweep_size T1 m) as H1.
    pose proof (sweep_size T2 (sweep T1 m).1) as H12.
    pose proof (sweep_size T2 m) as H2.
    rewrite (Htable T1 T2 HT) in H12. lia.
  - pose proof (sweep_size T1 (sweep T1 m).1) as H11.
    rewrite Hidem in H11.
    destruct (sweep T1 (sweep T1 m).1) as [m' c'] eqn:Hsw. simpl in *.
    subst m'. f_equal. lia.
Qed.

Lemma cleanups_compose_witness :
  (sweep 1500 (sweep 10 (deviceStates d1State)).1).1
  = (sweep 1500 (deviceStates d1State)).1.
Proof.
  apply (cleanups_compose 10 1500 (deviceStates d1State)). lia.
Defined.

(** ** Trigger requests compose *)

Lemma ServerState_eq (a b : ServerState) :
  deviceStates a = deviceStates b → store a = store b → a = b.
Proof. destruct a, b. simpl. intros -> ->. reflexivity. Qed.

Lemma triggerHandler_store (clock : nat → Z) (st : ServerState) (deviceId : JsValue) :
  store (triggerHandler clock st deviceId).2 = store st.
Proof. unfold triggerHandler. destruct (negb (truthy deviceId)); reflexivity. Qed.

Lemma triggerHandler_states (clock : nat → Z) (st : ServerState) (deviceId : JsValue) :
  deviceStates (triggerHandler clock st deviceId).2
  = if truthy deviceId
    then <[deviceId := mkDeviceState true (clock 0%nat + 30000000) (clock 1%nat)]>
           (deviceStates st)
    else deviceStates st.
Proof. unfold triggerHandler. destruct (truthy deviceId); reflexivity. Qed.

(** X13. Of two trigger requests for the same [deviceId] only the later
    one counts: the state after both is the state after the later one
    alone.  Trigger requests for different keys commute.  A trigger
    request never changes the store. *)
Theorem triggers_compose (c1 c2 : nat → Z) (st : ServerState) (id1 id2 : JsValue) :
  (triggerHandler c2 (triggerHandler c1 st id1).2 id1).2 = (triggerHandler c2 st id1).2
  ∧ (id1 ≠ id2 →
     (triggerHandler c2 (triggerHandler c1 st id1).2 id2).2
     = (triggerHandler c1 (triggerHandler c2 st id2).2 id1).2)
  ∧ store (triggerHandler c1 st id1).2 = store st.
Proof.
  split; [|split].
  - apply ServerState_eq.
    + rewrite !triggerHandler_states. destruct (truthy id1); [|reflexivity].
      apply insert_insert_eq.
    + rewrite !triggerHandler_store. reflexivity.
  - intros Hne. apply ServerState_eq.
    + rewrite !triggerHandler_states.
      destruct (truthy id1), (truthy id2); try reflexivity.
      apply insert_insert_ne. congruence.
    + rewrite !triggerHandler_store. reflexivity.
  - apply triggerHandler_store.
Qed.

(** ** The listing and status handlers *)

(** X14. A 200 answer of the listing handler means: the device has an
    entry with [triggered = true] that had not expired before the
    instant read at line 212, the store query succeeded with at least
    one document, and the body carries the device id, the documents,
    their number as [count], and [expires] minus the instant read at
    line 236 as [remainingTime]. *)
Theorem listing_ok_inversion (clock : nat → Z) (find : string → FindResult)
    (st : ServerState) (deviceId : string) :
  status (listHandler clock find st deviceId) = 200 →
  ∃ s coordinates,
    deviceStates st !! VString deviceId = Some s
    ∧ triggered s = true
    ∧ clock 0%nat ≤ expires s
    ∧ find deviceId = Found coordinates
    ∧ (1 ≤ length coordinates)%nat
    ∧ body (listHandler clock find st deviceId)
      = [("deviceId", JStr deviceId);
         ("count", JNum (Z.of_nat (length coordinates)));
         ("coordinates", JArr (map JObj coordinates));
         ("remainingTime", JNum (expires s - clock 1%nat))].
Proof.
  unfold listHandler.
  destruct (deviceStates st !! VString deviceId) as [s|] eqn:Hs; [|discriminate].
  rewrite notTriggeredOrExpired_Some.
  destruct (triggered s) eqn:Htr; [|discriminate]. simpl.
  destruct (decide (expires s >= clock 0%nat)) as [Hge|Hlt];
    [rewrite bool_decide_eq_true_2 by exact Hge
    |rewrite bool_decide_eq_false_2 by exact Hlt; discriminate].
  simpl. destruct (find deviceId) as [coordinates|msg] eqn:Hfind; [|discriminate].
  destruct coordinates as [|c cs]; [discriminate|].
  rewrite bool_decide_eq_false_2 by discriminate.
  intros _. exists s, (c :: cs).
  split; [reflexivity|]. split; [exact Htr|]. split; [lia|].
  split; [reflexivity|]. split; [simpl; lia|reflexivity].
Qed.

Lemma listing_ok_inversion_witness :
  ∃ s coordinates,
    deviceStates d1State !! VString "d1" = Some s
    ∧ triggered s = true
    ∧ constClock 1000 0%nat ≤ expires s
    ∧ (λ _, Found [[("latitude", JNum 1)]]) "d1" = Found coordinates
    ∧ (1 ≤ length coordinates)%nat
    ∧ body (listHandler (constClock 1000) (λ _, Found [[("latitude", JNum 1)]])
              d1State "d1")
      = [("deviceId", JStr "d1");
         ("count", JNum (Z.of_nat (length coordinates)));
         ("coordinates", JArr (map JObj coordinates));
         ("remainingTime", JNum (expires s - constClock 1000 1%nat))].
Proof.
  apply (listing_ok_inversion (constClock 1000)
           (λ _, Found [[("latitude", JNum 1)]]) d1State "d1").
  reflexivity.
Defined.

(** X15. The status handler always answers 200.  Its [code] is
    DEVICE_ACTIVE exactly when [triggered] is [true].  When [triggered]
    is [true] the remaining time is [expires] minus the second clock
    reading, which is positive if the two readings are the same
    instant; when [triggered] is [false] the remaining time is 0 or the
    field is absent. *)
Theorem status_answer_shape (clock : nat → Z) (st : ServerState) (deviceId : string) :
  let r := statusHandler clock st deviceId in
  status r = 200
  ∧ (getField "triggered" (body r) = Some (JBool true)
     ↔ getField "code" (body r) = Some (JStr "DEVICE_ACTIVE"))
  ∧ (getField "triggered" (body r) = Some (JBool true) →
     ∃ s, deviceStates st !! VString deviceId = Some s
          ∧ getField "expiresIn" (body r) = Some (JNum (expires s - clock 1%nat))
          ∧ (clock 1%nat = clock 0%nat → 0 < expires s - clock 1%nat))
  ∧ (getField "triggered" (body r) = Some (JBool false) →
     getField "expiresIn" (body r) = Some (JNum 0)
     ∨ getField "expiresIn" (body r) = None).
Proof.
  intros r. subst r. unfold statusHandler.
  destruct (deviceStates st !! VString deviceId) as [s|] eqn:Hs.
  - destruct (isActive s (clock 0%nat)) eqn:Hact; simpl.
    + repeat split; try reflexivity; try discriminate.
      intros _. exists s. repeat split.
      intros Hsame. unfold isActive in Hact.
      apply andb_true_iff in Hact as [_ Hgt].
      apply bool_decide_eq_true in Hgt. lia.
    + repeat split; try discriminate. intros _. left. reflexivity.
  - simpl. repeat split; try discriminate. intros _. right. reflexivity.
Qed.
